(** * videostream/models.py: a shallow embedding and its properties

    The development follows the layout of [videostream/models.py]:

    - [Py]: the pieces of the Python 2 runtime the module calls
      ([str.split], [str.lower], subscripting, [datetime.strftime],
      exceptions);
    - [Models]: the classes [Video], [BasicVideo], [HTML5Video],
      [EmbedVideo], [FlashVideo], what the field options written in the
      module make the inherited [Model.save] do ([auto_now],
      [auto_now_add], [unique], the automatic primary key, the reverse
      accessor of a relation), and the methods of the classes;
    - the theorems, one block per method. *)

From Stdlib Require Import ZArith String Ascii List Bool Lia DecimalString.
From stdpp Require Import base option gmap strings list fin_maps.

Local Open Scope string_scope.
Local Open Scope Z_scope.

(* ===================================================================== *)
(** * Python runtime                                                       *)
(* ===================================================================== *)

Module Py.

(** Exceptions the module can raise or let through. *)
Inductive exn : Type :=
| AttributeError
| IndexError
| ValueError
| IntegrityError
| OverflowError
| DoesNotExist
| NoReverseMatch.

Inductive result (A : Type) : Type :=
| Ok (a : A)
| Raise (e : exn).
Arguments Ok {A} a.
Arguments Raise {A} e.

Definition rbind {A B : Type} (r : result A) (k : A -> result B) : result B :=
  match r with
  | Ok a => k a
  | Raise e => Raise e
  end.

Definition raises {A : Type} (r : result A) : bool :=
  match r with Ok _ => false | Raise _ => true end.

(** The values that travel through [reverse] and [get_FOO_display]. *)
Inductive value : Type :=
| PyNone
| PyInt (n : Z)
| PyStr (s : string).

(** ** Strings *)

(** [c in s] for a one-character [c]. *)
Fixpoint occurs (c : ascii) (s : string) : bool :=
  match s with
  | EmptyString => false
  | String a s' => Ascii.eqb a c || occurs c s'
  end.

(** [s.split(sep)] for a one-character separator: every occurrence cuts,
    empty pieces are kept, and the result is never the empty list. *)
Fixpoint split (sep : ascii) (s : string) : list string :=
  match s with
  | EmptyString => [EmptyString]
  | String a s' =>
      if Ascii.eqb a sep then EmptyString :: split sep s'
      else match split sep s' with
           | [] => [String a EmptyString]
           | p :: ps => String a p :: ps
           end
  end.

(** [l[i]] for [i >= 0]. *)
Definition subscript {A : Type} (l : list A) (i : nat) : result A :=
  match l !! i with
  | Some x => Ok x
  | None => Raise IndexError
  end.

Definition lower_char (a : ascii) : ascii :=
  let n := nat_of_ascii a in
  if (65 <=? n)%nat && (n <=? 90)%nat then ascii_of_nat (n + 32) else a.

(** [s.lower()] on byte strings. *)
Fixpoint lower (s : string) : string :=
  match s with
  | EmptyString => EmptyString
  | String a s' => String (lower_char a) (lower s')
  end.

(** [str(n)] for an integer: decimal digits, a minus sign when negative. *)
Definition decimal (n : Z) : string := NilZero.string_of_int (Z.to_int n).

(** C's [%02d] on a non-negative number. *)
Definition pad2 (n : Z) : string :=
  let s := decimal n in
  if (String.length s <? 2)%nat then "0" +:+ s else s.

(** ** datetime *)

Record datetime : Type := mk_datetime {
  year : Z;
  month : Z;
  day : Z;
  hour : Z;
  minute : Z;
  second : Z;
  microsecond : Z
}.

Definition is_leap (y : Z) : bool :=
  (y mod 4 =? 0) && (negb (y mod 100 =? 0) || (y mod 400 =? 0)).

Definition days_in_month (y m : Z) : Z :=
  if m =? 2 then (if is_leap y then 29 else 28)
  else if (m =? 4) || (m =? 6) || (m =? 9) || (m =? 11) then 30
  else 31.

(** What the [datetime] constructor accepts (MINYEAR = 1, MAXYEAR = 9999). *)
Definition valid_datetime (d : datetime) : bool :=
  (1 <=? year d) && (year d <=? 9999) &&
  (1 <=? month d) && (month d <=? 12) &&
  (1 <=? day d) && (day d <=? days_in_month (year d) (month d)) &&
  (0 <=? hour d) && (hour d <=? 23) &&
  (0 <=? minute d) && (minute d <=? 59) &&
  (0 <=? second d) && (second d <=? 59) &&
  (0 <=? microsecond d) && (microsecond d <=? 999999).

(** Abbreviated month names of the C locale, which is the locale in force
    unless the process calls [setlocale]; nothing in the module does. *)
Definition month_abbr : list string :=
  ["Jan"; "Feb"; "Mar"; "Apr"; "May"; "Jun";
   "Jul"; "Aug"; "Sep"; "Oct"; "Nov"; "Dec"].

Definition strftime_b (d : datetime) : string :=
  nth (Z.to_nat (month d - 1)) month_abbr "".

(** Expansion of one directive. Only [%Y], [%b], [%d] and [%%] occur in
    the module; any other directive is copied as it stands. *)
Definition directive (d : datetime) (a : ascii) : string :=
  if Ascii.eqb a "Y" then decimal (year d)
  else if Ascii.eqb a "b" then strftime_b d
  else if Ascii.eqb a "d" then pad2 (day d)
  else if Ascii.eqb a "%" then "%"
  else String "%" (String a EmptyString).

Fixpoint expand (d : datetime) (fmt : string) : string :=
  match fmt with
  | EmptyString => EmptyString
  | String a rest =>
      if Ascii.eqb a "%" then
        match rest with
        | EmptyString => "%"
        | String b rest' => directive d b +:+ expand d rest'
        end
      else String a (expand d rest)
  end.

(** [d.strftime(fmt)]. The module is Python 2 code ([__unicode__],
    [super(Video, self)], [models.permalink]); there [datetime.strftime]
    refuses every year before 1900 with [ValueError], whatever the
    format. *)
Definition strftime (d : datetime) (fmt : string) : result string :=
  if year d <? 1900 then Raise ValueError else Ok (expand d fmt).

End Py.

(* ===================================================================== *)
(** * The classes of models.py                                             *)
(* ===================================================================== *)

Module Models.
Import Py.

(** ** Fields *)

(** [class Video(models.Model)], lines 44-62. [id] is the automatic primary
    key, [None] until the row exists. *)
Record Video : Type := mk_Video {
  id : option Z;
  title : string;
  slug : string;
  tags : string;
  description : option string;
  is_public : bool;
  allow_comments : bool;
  created_date : option datetime;
  modified_date : option datetime;
  publish_date : option datetime
}.

Definition set_id (x : option Z) (v : Video) : Video :=
  mk_Video x (title v) (slug v) (tags v) (description v) (is_public v)
    (allow_comments v) (created_date v) (modified_date v) (publish_date v).

Definition set_is_public (x : bool) (v : Video) : Video :=
  mk_Video (id v) (title v) (slug v) (tags v) (description v) x
    (allow_comments v) (created_date v) (modified_date v) (publish_date v).

Definition set_created_date (x : option datetime) (v : Video) : Video :=
  mk_Video (id v) (title v) (slug v) (tags v) (description v) (is_public v)
    (allow_comments v) x (modified_date v) (publish_date v).

Definition set_modified_date (x : option datetime) (v : Video) : Video :=
  mk_Video (id v) (title v) (slug v) (tags v) (description v) (is_public v)
    (allow_comments v) (created_date v) x (publish_date v).

Definition set_publish_date (x : option datetime) (v : Video) : Video :=
  mk_Video (id v) (title v) (slug v) (tags v) (description v) (is_public v)
    (allow_comments v) (created_date v) (modified_date v) x.

(** The three subclasses of [Video] (multi-table inheritance: each carries
    the fields of its parent row). *)
Record BasicVideo : Type := mk_BasicVideo {
  basic_fields : Video
}.

Record EmbedVideo : Type := mk_EmbedVideo {
  embed_fields : Video;
  video_url : option string;
  video_code : option string
}.

(** The three file columns of a [FlashVideo], and [video_file] of an
    [HTML5Video] below, hold what the database row holds: the name under
    which the file is stored, or [None]. An upload that is assigned to the
    attribute and not yet written to the storage is outside this model: the
    [pre_save] of Django's [FileField] writes such a file during [save] and
    puts the name the storage gave it in the attribute. *)
Record FlashVideo : Type := mk_FlashVideo {
  flash_fields : Video;
  videoupload : option string;
  flvfile : option string;
  thumbnail : option string;
  encode : bool
}.

(** An instance of [Video] or of one of its subclasses. *)
Inductive instance : Type :=
| of_Video (v : Video)
| of_BasicVideo (b : BasicVideo)
| of_EmbedVideo (e : EmbedVideo)
| of_FlashVideo (f : FlashVideo).

Definition fields (o : instance) : Video :=
  match o with
  | of_Video v => v
  | of_BasicVideo b => basic_fields b
  | of_EmbedVideo e => embed_fields e
  | of_FlashVideo f => flash_fields f
  end.

Definition update (g : Video -> Video) (o : instance) : instance :=
  match o with
  | of_Video v => of_Video (g v)
  | of_BasicVideo b => of_BasicVideo (mk_BasicVideo (g (basic_fields b)))
  | of_EmbedVideo e =>
      of_EmbedVideo (mk_EmbedVideo (g (embed_fields e)) (video_url e) (video_code e))
  | of_FlashVideo f =>
      of_FlashVideo (mk_FlashVideo (g (flash_fields f)) (videoupload f)
                       (flvfile f) (thumbnail f) (encode f))
  end.

(** [class HTML5Video(models.Model)], lines 93-117. *)
Definition OGG : Z := 0.
Definition WEBM : Z := 1.
Definition MP4 : Z := 2.
Definition FLASH : Z := 3.

Definition VIDEO_TYPE : list (Z * string) :=
  [ (OGG, "video/ogg");
    (WEBM, "video/webm");
    (MP4, "vidoe/mp4");
    (FLASH, "video/flv") ].

Record HTML5Video : Type := mk_HTML5Video {
  html5_id : option Z;
  video_type : Z;
  video_file : option string;
  basic_video_id : option Z
}.

(** [HTML5Video(video_type=..., video_file=..., basic_video=...)]: a keyword
    that is left out takes the default of its field; [video_type] has
    [default=WEBM], the two others start as [None]. *)
Definition HTML5Video_init (kw_video_type : option Z) (kw_video_file : option string)
    (kw_basic_video : option BasicVideo) : HTML5Video :=
  mk_HTML5Video None
    (match kw_video_type with Some t => t | None => WEBM end)
    kw_video_file
    (match kw_basic_video with
     | Some b => id (basic_fields b)
     | None => None
     end).

(** ** The process: a clock and the two tables *)

(** [clock] lists what successive calls of [datetime.now()] return and
    [ticks] counts the calls made so far. *)
Record World : Type := mk_World {
  clock : nat -> datetime;
  ticks : nat;
  videos : gmap Z instance;
  html5videos : gmap Z HTML5Video
}.

Definition set_ticks (n : nat) (w : World) : World :=
  mk_World (clock w) n (videos w) (html5videos w).

Definition set_videos (t : gmap Z instance) (w : World) : World :=
  mk_World (clock w) (ticks w) t (html5videos w).

Definition set_html5videos (t : gmap Z HTML5Video) (w : World) : World :=
  mk_World (clock w) (ticks w) (videos w) t.

(** ** Methods: state, mutation of [self], exceptions

    A method runs on its receiver and on the process. An exception ends the
    method, but what was assigned to [self] before stays assigned. *)
Record run (Self A : Type) : Type := mk_run {
  outcome : result A;
  self_after : Self;
  world_after : World
}.
Arguments mk_run {Self A} _ _ _.
Arguments outcome {Self A} _.
Arguments self_after {Self A} _.
Arguments world_after {Self A} _.

Definition method (Self A : Type) : Type := Self -> World -> run Self A.

Definition ret {Self A : Type} (a : A) : method Self A :=
  fun self w => mk_run (Ok a) self w.

Definition raise {Self A : Type} (e : exn) : method Self A :=
  fun self w => mk_run (Raise e) self w.

Definition bind {Self A B : Type} (m : method Self A) (k : A -> method Self B)
  : method Self B :=
  fun self w =>
    let r := m self w in
    match outcome r with
    | Ok a => k a (self_after r) (world_after r)
    | Raise e => mk_run (Raise e) (self_after r) (world_after r)
    end.

Notation "x <- m ;; k" := (bind m (fun x => k))
  (at level 100, m at next level, right associativity).
Notation "m ;;; k" := (bind m (fun _ => k))
  (at level 100, right associativity).

Definition getattr {Self A : Type} (f : Self -> A) : method Self A :=
  fun self w => mk_run (Ok (f self)) self w.

Definition setattr {Self : Type} (g : Self -> Self) : method Self unit :=
  fun self w => mk_run (Ok tt) (g self) w.

Definition world {Self A : Type} (f : World -> A) : method Self A :=
  fun self w => mk_run (Ok (f w)) self w.

Definition set_world {Self : Type} (g : World -> World) : method Self unit :=
  fun self w => mk_run (Ok tt) self (g w).

(** [datetime.now()] *)
Definition now {Self : Type} : method Self datetime :=
  fun self w => mk_run (Ok (clock w (ticks w))) self (set_ticks (S (ticks w)) w).

(** ** What the declared options make the inherited [Model.save] do *)

(** The database is SQLite, as a Django project of that time starts with.
    An integer column holds a signed 64-bit number; the driver raises
    [OverflowError] on any other. *)
Definition fits_integer (n : Z) : bool :=
  (- 2 ^ 63 <=? n) && (n <? 2 ^ 63).
Arguments fits_integer : simpl never.

Definition fits_integer_or_null (x : option Z) : bool :=
  match x with
  | Some n => fits_integer n
  | None => true
  end.

Definition largest_key {A : Type} (t : gmap Z A) : option Z :=
  map_fold (fun k _ acc => Some (match acc with
                                 | Some m => Z.max k m
                                 | None => k
                                 end)) None t.

(** The key SQLite gives to a new row of an [AutoField] table: one more
    than the largest key of the table, 1 in an empty table (while the
    largest key is below the largest number of the column). *)
Definition next_id {A : Type} (t : gmap Z A) : Z :=
  match largest_key t with
  | Some m => m + 1
  | None => 1
  end.

(** [unique=True] on [slug] (line 52): a row is refused when another row
    of the table already has its slug. *)
Definition slug_taken (s : string) (own : option Z) (t : gmap Z instance) : bool :=
  bool_decide (map_Exists (fun k o => slug (fields o) = s /\ Some k <> own) t).

(** [Model.save] on a [Video] or a subclass of it, called as line 87 calls
    it from [save()]: without positional or keyword arguments (those of
    Django's [save], [force_insert], [force_update] and [using], which
    lines 83 and 87 only pass on, select other paths and are not modelled);
    the key of the instance, when it has one, is a number the column can
    hold. The row is added when the instance has no key or its key is not
    in the table, and updated otherwise. Before the write, [auto_now_add]
    (line 60) stamps [created_date] when the row is added and [auto_now]
    (line 61) stamps [modified_date] always, both on the instance itself.
    The write then raises on a taken slug, and on a [created_date] that is
    [None]: the column of line 60 has no [null=True], and on an update
    nothing stamps it. Else the instance gets its key and the row is
    stored. *)
Definition Model_save : method instance unit :=
  pk <- getattr (fun o => id (fields o)) ;;
  t <- world videos ;;
  let add := match pk with
             | Some i => bool_decide (t !! i = None)
             | None => true
             end in
  (if add then c <- now ;; setattr (update (set_created_date (Some c)))
   else ret tt) ;;;
  m <- now ;;
  setattr (update (set_modified_date (Some m))) ;;;
  s <- getattr (fun o => slug (fields o)) ;;
  c <- getattr (fun o => created_date (fields o)) ;;
  if slug_taken s pk t || bool_decide (c = None) then raise IntegrityError
  else
    let i := match pk with Some i => i | None => next_id t end in
    setattr (update (set_id (Some i))) ;;;
    o <- getattr (fun o => o) ;;
    set_world (set_videos (<[i := o]> t)).

Definition set_html5_id (x : option Z) (h : HTML5Video) : HTML5Video :=
  mk_HTML5Video x (video_type h) (video_file h) (basic_video_id h).

(** [Model.save] on an [HTML5Video], called without arguments. The three
    numbers of the row go to the database: one that the column cannot hold
    raises [OverflowError]. [basic_video] (line 117) is a [ForeignKey]
    without [null=True]: a row without owner is refused. That the owner is
    a row of the other table is not checked: SQLite, as Django drives it
    here, does not enforce the reference. *)
Definition HTML5Video_save : method HTML5Video unit :=
  pk <- getattr html5_id ;;
  vt <- getattr video_type ;;
  owner <- getattr basic_video_id ;;
  t <- world html5videos ;;
  if negb (fits_integer_or_null pk && fits_integer vt && fits_integer_or_null owner)
  then raise OverflowError
  else
    match owner with
    | None => raise IntegrityError
    | Some _ =>
        let i := match pk with Some i => i | None => next_id t end in
        setattr (set_html5_id (Some i)) ;;;
        h <- getattr (fun h => h) ;;
        set_world (set_html5videos (<[i := h]> t))
    end.

(** The two kinds of relation to another model, and the name under which
    the other model sees the relation: [<model>_set], a manager over all
    the rows that point to the instance, for a [ForeignKey]; [<model>], the
    one row that points to it, for a [OneToOneField]. *)
Inductive relation : Type :=
| ForeignKey
| OneToOneField.

Definition accessor_name (r : relation) (model : string) : string :=
  match r with
  | ForeignKey => lower model +:+ "_set"
  | OneToOneField => lower model
  end.

(** [basic_video = models.ForeignKey(BasicVideo)], line 117 *)
Definition HTML5Video_basic_video : relation := ForeignKey.

(** The rows of [HTML5Video] that point to the [BasicVideo] with key [pk]. *)
Definition html5video_set (pk : Z) (t : gmap Z HTML5Video) : gmap Z HTML5Video :=
  filter (fun kh => basic_video_id kh.2 = Some pk) t.

Inductive related : Type :=
| Manager (rows : gmap Z HTML5Video)
| Related (h : HTML5Video).

(** [self.<name>] on a [BasicVideo], for a [name] that is not a field or a
    method of the class: the only such attribute is the accessor of the
    relation of line 117. *)
Definition BasicVideo_getattr (name : string) : method BasicVideo related :=
  if String.eqb name (accessor_name HTML5Video_basic_video "HTML5Video") then
    pk <- getattr (fun b => id (basic_fields b)) ;;
    t <- world html5videos ;;
    let rows := match pk with
                | Some i => html5video_set i t
                | None => ∅
                end in
    match HTML5Video_basic_video with
    | ForeignKey => ret (Manager rows)
    | OneToOneField =>
        match map_to_list rows with
        | [(_, h)] => ret (Related h)
        | _ => raise DoesNotExist
        end
    end
  else raise AttributeError.

(** ** Methods of [Video] (lines 71-87) *)

(** [dict(items).get(k)]: of two items with one key the later one counts. *)
Fixpoint dict_get (k : Z) (items : list (Z * string)) : option string :=
  match items with
  | [] => None
  | (k', v) :: rest =>
      match dict_get k rest with
      | Some v' => Some v'
      | None => if k =? k' then Some v else None
      end
  end.

Definition value_of_id (i : option Z) : value :=
  match i with
  | Some n => PyInt n
  | None => PyNone
  end.

Section Permalink.

(** [django.core.urlresolvers.reverse]: the URL configuration is not part
    of the module. *)
Variable urlresolvers_reverse :
  string -> list value -> gmap string value -> result string.

(** The body of [get_absolute_url]: view name, positional arguments,
    keyword arguments. *)
Definition Video_get_absolute_url_bits (self : Video)
  : result (string * list value * gmap string value) :=
  match publish_date self with
  | Some d =>
      rbind (strftime d "%Y") (fun y =>
      rbind (strftime d "%b") (fun b =>
      rbind (strftime d "%d") (fun dd =>
      Ok ("videostream_video_detail", [],
          {[ "year" := PyStr y;
             "month" := PyStr (lower b);
             "day" := PyStr dd;
             "slug" := PyStr (slug self) ]}))))
  | None => Ok ("videostream_video_detail_id", [value_of_id (id self)], ∅)
  end.

(** [@models.permalink] *)
Definition permalink {Self : Type}
    (func : Self -> result (string * list value * gmap string value))
    (self : Self) : result string :=
  rbind (func self) (fun bits =>
    urlresolvers_reverse bits.1.1 bits.1.2 bits.2).

Definition Video_get_absolute_url : Video -> result string :=
  permalink Video_get_absolute_url_bits.

End Permalink.

(** Lines 84-86 of [save]. *)
Definition Video_save_stamps : method instance unit :=
  t <- now ;;
  setattr (update (set_modified_date (Some t))) ;;;
  pd <- getattr (fun o => publish_date (fields o)) ;;
  pub <- getattr (fun o => is_public (fields o)) ;;
  if bool_decide (pd = None) && pub then
    t' <- now ;;
    setattr (update (set_publish_date (Some t')))
  else ret tt.

(** [Video.save], inherited by the three subclasses. *)
Definition Video_save : method instance unit :=
  Video_save_stamps ;;;
  Model_save.

(** ** [HTML5Video] and [BasicVideo.video_type] (lines 89-109) *)

(** [get_video_type_display()], which [choices=VIDEO_TYPE] gives the class:
    the label of the stored number, or the number itself when no choice
    has it. *)
Definition HTML5Video_get_video_type_display (self : HTML5Video) : value :=
  match dict_get (video_type self) VIDEO_TYPE with
  | Some label => PyStr label
  | None => PyInt (video_type self)
  end.

(** [BasicVideo.video_type], lines 90-91. A manager has no
    [get_video_type_display]. *)
Definition BasicVideo_video_type : method BasicVideo value :=
  a <- BasicVideo_getattr "html5video" ;;
  match a with
  | Related h => ret (HTML5Video_get_video_type_display h)
  | Manager _ => raise AttributeError
  end.

(** ** Classes and method lookup *)

Inductive class : Type :=
| Video_class
| BasicVideo_class
| EmbedVideo_class
| FlashVideo_class.

Definition class_of (o : instance) : class :=
  match o with
  | of_Video _ => Video_class
  | of_BasicVideo _ => BasicVideo_class
  | of_EmbedVideo _ => EmbedVideo_class
  | of_FlashVideo _ => FlashVideo_class
  end.

Definition parent (c : class) : option class :=
  match c with
  | Video_class => None
  | _ => Some Video_class
  end.

(** The methods each class body writes. *)
Definition own_methods (c : class) : list string :=
  match c with
  | Video_class => ["__unicode__"; "get_absolute_url"; "save"]
  | BasicVideo_class => ["video_type"]
  | EmbedVideo_class => []
  | FlashVideo_class => ["get_player_size"]
  end.

Definition defines (c : class) (name : string) : bool :=
  existsb (String.eqb name) (own_methods c).

(** The class whose body provides [name] for an instance of [c]. *)
Definition resolve (c : class) (name : string) : option class :=
  if defines c name then Some c
  else match parent c with
       | Some p => if defines p name then Some p else None
       | None => None
       end.

(** [o.video_type()] on any instance. *)
Definition call_video_type : method instance value :=
  fun o w =>
    match resolve (class_of o) "video_type", o with
    | Some BasicVideo_class, of_BasicVideo b =>
        let r := BasicVideo_video_type b w in
        mk_run (outcome r) (of_BasicVideo (self_after r)) (world_after r)
    | _, _ => mk_run (Raise AttributeError) o w
    end.

(** ** [FlashVideo.get_player_size] (lines 160-164) *)

(** [settings] holds the string settings of the project by name. *)
Definition FlashVideo_get_player_size (settings : gmap string string)
    (self : FlashVideo) : result string :=
  let size := split "x" (default "320x240" (settings !! "VIDEOSTREAM_SIZE")) in
  rbind (subscript size 0) (fun w =>
  rbind (subscript size 1) (fun h =>
  Ok ("width: " +:+ w +:+ "px; height: " +:+ h +:+ "px;"))).

(** ** Callers *)

(** A caller that sets [is_public], saves, and goes on whether or not the
    save raised, once for each flag of the list. *)
Fixpoint resave (flags : list bool) (self : instance) (w : World) : instance * World :=
  match flags with
  | [] => (self, w)
  | b :: rest =>
      let r := Video_save (update (set_is_public b) self) w in
      resave rest (self_after r) (world_after r)
  end.

(** The processes that start with empty tables and save instances. *)
Inductive reachable : World -> Prop :=
| reachable_start (c : nat -> datetime) :
    reachable (mk_World c 0 ∅ ∅)
| reachable_Video_save (o : instance) (w : World) :
    reachable w -> reachable (world_after (Video_save o w))
| reachable_HTML5Video_save (h : HTML5Video) (w : World) :
    reachable w -> reachable (world_after (HTML5Video_save h w)).

(** How many [HTML5Video] rows an instance holds: those that point to it
    when it is a [BasicVideo], none for the other classes, which have no
    such relation. *)
Definition html5_payloads (o : instance) (w : World) : nat :=
  match o with
  | of_BasicVideo b =>
      match id (basic_fields b) with
      | Some pk => size (html5video_set pk (html5videos w))
      | None => 0%nat
      end
  | _ => 0%nat
  end.


(** The record of the table of videos that a row names as its owner. *)
Definition owner (h : HTML5Video) (w : World) : option instance :=
  match basic_video_id h with
  | Some pk => videos w !! pk
  | None => None
  end.



(** ** Renderings the properties are stated with *)

Definition digit (n : Z) : ascii := ascii_of_nat (48 + Z.to_nat n).

Definition two_digits (n : Z) : string :=
  String (digit (n / 10)) (String (digit (n mod 10)) EmptyString).

Definition four_digits (n : Z) : string :=
  String (digit (n / 1000))
    (String (digit (n / 100 mod 10))
       (String (digit (n / 10 mod 10))
          (String (digit (n mod 10)) EmptyString))).

Definition month_keys : list string :=
  ["jan"; "feb"; "mar"; "apr"; "may"; "jun";
   "jul"; "aug"; "sep"; "oct"; "nov"; "dec"].

(** ** Sample data *)

Definition sample_clock (n : nat) : datetime :=
  mk_datetime 2011 5 17 12 0 (Z.of_nat n) 0.

Definition sample_world : World := mk_World sample_clock 0 ∅ ∅.

Definition sample_video : Video :=
  mk_Video None "Intro" "intro-clip" "" None true false None None None.

Definition sample_draft : Video :=
  mk_Video None "Draft" "draft-clip" "" None false false None None None.

Definition sample_flash : FlashVideo :=
  mk_FlashVideo sample_draft None None None false.

Definition sample_embed : EmbedVideo :=
  mk_EmbedVideo sample_draft (Some "http://example.com/clip") None.

(** A stored record published on 17 May 2011, one published in the year
    999, and a stored record that is not published. *)
Definition sample_published : Video :=
  mk_Video (Some 1) "Intro" "intro-clip" "" None true false
    (Some (sample_clock 2)) (Some (sample_clock 3)) (Some (sample_clock 1)).

Definition sample_old : Video :=
  mk_Video (Some 2) "Old" "old-clip" "" None true false
    (Some (sample_clock 2)) (Some (sample_clock 3))
    (Some (mk_datetime 999 1 1 0 0 0 0)).

Definition sample_stored_draft : Video :=
  mk_Video (Some 3) "Draft" "draft-clip" "" None false false
    (Some (sample_clock 2)) (Some (sample_clock 3)) None.

(** A URL configuration with the two routes of the video detail views. *)
Definition sample_reverse (name : string) (args : list value)
    (kwargs : gmap string value) : result string :=
  if String.eqb name "videostream_video_detail" then
    match kwargs !! "year", kwargs !! "month", kwargs !! "day", kwargs !! "slug" with
    | Some (PyStr y), Some (PyStr m), Some (PyStr d), Some (PyStr s) =>
        Ok ("/" +:+ y +:+ "/" +:+ m +:+ "/" +:+ d +:+ "/" +:+ s +:+ "/")
    | _, _, _, _ => Raise NoReverseMatch
    end
  else if String.eqb name "videostream_video_detail_id" then
    match args with
    | [PyInt n] => Ok ("/" +:+ decimal n +:+ "/")
    | _ => Raise NoReverseMatch
    end
  else Raise NoReverseMatch.

(** A saved [BasicVideo] and the process after two [HTML5Video] rows were
    saved for it. *)
Definition saved_basic : run instance unit :=
  Video_save (of_BasicVideo (mk_BasicVideo sample_video)) sample_world.

Definition saved_basic_video : BasicVideo :=
  match self_after saved_basic with
  | of_BasicVideo b => b
  | _ => mk_BasicVideo sample_video
  end.

Definition first_payload : run HTML5Video unit :=
  HTML5Video_save (HTML5Video_init None None (Some saved_basic_video))
    (world_after saved_basic).

Definition second_payload : run HTML5Video unit :=
  HTML5Video_save (HTML5Video_init (Some MP4) None (Some saved_basic_video))
    (world_after first_payload).

(** ** The rest of the module *)

(** A keyword argument of a field. *)
Inductive kwarg : Type :=
| KwInt (n : Z)
| KwBool (b : bool)
| KwStr (s : string).

(** [d.update(other)]: every key of [other] is set in [d]. *)
Definition dict_update {A : Type} (d other : gmap string A) : gmap string A :=
  other ∪ d.

(** The fallback [TagField] of lines 14-20, defined when [tagging] cannot be
    imported: what its [__init__] hands to [CharField.__init__]. *)
Definition TagField_default_kwargs : gmap string kwarg :=
  {[ "max_length" := KwInt 255; "blank" := KwBool true ]}.

Definition TagField_init (kwargs : gmap string kwarg) : gmap string kwarg :=
  dict_update TagField_default_kwargs kwargs.

Definition TagField_get_internal_type : string := "CharField".

(** Lines 12 and 21: the help text, by whether the import succeeded. *)
Definition tagfield_help_text (tagging_found : bool) : string :=
  if tagging_found
  then "Separate tags with spaces, put quotes around multiple-word tags."
  else "Django-tagging was not found, tags will be treated as plain text.".

(** [class VideoCategory(models.Model)], lines 24-42. *)
Record VideoCategory : Type := mk_VideoCategory {
  category_id : option Z;
  category_title : string;
  category_slug : string;
  category_description : option string
}.

(** ["%s" % self.title] *)
Definition VideoCategory_unicode (self : VideoCategory) : string :=
  category_title self.

Definition VideoCategory_get_absolute_url_bits (self : VideoCategory)
  : result (string * list value * gmap string value) :=
  Ok ("videostream_category_detail", [PyStr (category_slug self)], ∅).

Definition VideoCategory_get_absolute_url
    (urlresolvers_reverse : string -> list value -> gmap string value -> result string)
  : VideoCategory -> result string :=
  permalink urlresolvers_reverse VideoCategory_get_absolute_url_bits.

(** [Video.__unicode__], lines 68-69. *)
Definition Video_unicode (self : Video) : string := title self.

(** ** What the table of videos keeps *)

(** Every row carries the key it is stored under. *)
Definition keyed (t : gmap Z instance) : Prop :=
  forall k o, t !! k = Some o -> id (fields o) = Some k.

(** No two rows have one slug. *)
Definition slugs_unique (t : gmap Z instance) : Prop :=
  forall k1 k2 o1 o2,
    t !! k1 = Some o1 -> t !! k2 = Some o2 ->
    slug (fields o1) = slug (fields o2) -> k1 = k2.

(** [v] with the key and the three dates of [src]. *)
Definition restamp (src v : Video) : Video :=
  set_id (id src)
    (set_created_date (created_date src)
       (set_modified_date (modified_date src)
          (set_publish_date (publish_date src) v))).

(** Whether the row of an instance is in the table already. *)
Definition stored (o : instance) (w : World) : bool :=
  match id (fields o) with
  | Some i => bool_decide (is_Some (videos w !! i))
  | None => false
  end.

(** Whether the database refuses the row of an instance: its slug is that
    of another row, or the row is in the table and the instance has no
    [created_date]. *)
Definition refused (o : instance) (w : World) : bool :=
  slug_taken (slug (fields o)) (id (fields o)) (videos w)
  || (stored o w && bool_decide (created_date (fields o) = None)).

End Models.

(* ===================================================================== *)
(** * Properties                                                           *)
(* ===================================================================== *)

Import Py Models.

(** ** The method monad *)

Lemma fields_update (g : Video -> Video) (o : instance) :
  fields (update g o) = g (fields o).
Proof. destruct o; reflexivity. Qed.

(** ** The inherited save *)

(** Runs [Model_save] on [o] along each of its paths. *)
Ltac run_Model_save o :=
  unfold Model_save, bind, getattr, world, setattr, set_world, now, ret, raise;
  simpl;
  destruct (id (fields o)); simpl;
  repeat (case_bool_decide; simpl);
  repeat (match goal with
          | |- context [slug_taken ?a ?b ?c] => destruct (slug_taken a b c); simpl
          end).

Lemma Model_save_publish_date (o : instance) (w : World) :
  publish_date (fields (self_after (Model_save o w))) = publish_date (fields o).
Proof.
  run_Model_save o;
    rewrite ?fields_update; reflexivity.
Qed.

(** The inherited save reads the clock once or twice, and its last reading
    is what [modified_date] holds afterwards. *)
Lemma Model_save_modified_date (o : instance) (w : World) :
  let r := Model_save o w in
  (ticks w < ticks (world_after r))%nat /\
  modified_date (fields (self_after r))
  = Some (clock w (Nat.pred (ticks (world_after r)))).
Proof.
  run_Model_save o;
    rewrite ?fields_update; simpl; rewrite ?fields_update; simpl;
    split; (lia || reflexivity).
Qed.

Lemma Model_save_html5videos (o : instance) (w : World) :
  html5videos (world_after (Model_save o w)) = html5videos w.
Proof.
  run_Model_save o;
    reflexivity.
Qed.

(** ** Lines 84-86 *)

Lemma Video_save_stamps_outcome (o : instance) (w : World) :
  outcome (Video_save_stamps o w) = Ok tt.
Proof.
  unfold Video_save_stamps, bind, getattr, setattr, now, ret. simpl.
  rewrite fields_update. simpl.
  destruct (bool_decide (publish_date (fields o) = None) && is_public (fields o));
    reflexivity.
Qed.

Lemma Video_save_stamps_world (o : instance) (w : World) :
  let w' := world_after (Video_save_stamps o w) in
  clock w' = clock w /\ html5videos w' = html5videos w /\
  (ticks w < ticks w')%nat.
Proof.
  unfold Video_save_stamps, bind, getattr, setattr, now, ret. simpl.
  rewrite fields_update. simpl.
  destruct (bool_decide (publish_date (fields o) = None) && is_public (fields o));
    simpl; repeat split; lia.
Qed.


(** The latch: line 86 runs exactly when the date is [None] and the flag is
    set, and then stores the second reading of the clock. *)
Lemma Video_save_stamps_publish_date (o : instance) (w : World) :
  publish_date (fields (self_after (Video_save_stamps o w)))
  = match publish_date (fields o) with
    | Some d => Some d
    | None => if is_public (fields o) then Some (clock w (S (ticks w))) else None
    end.
Proof.
  unfold Video_save_stamps, bind, getattr, setattr, now, ret. simpl.
  rewrite fields_update. simpl.
  destruct (publish_date (fields o)) as [d|] eqn:Hpd; simpl.
  - rewrite fields_update. simpl. exact Hpd.
  - destruct (is_public (fields o)); simpl; rewrite !fields_update; simpl.
    + reflexivity.
    + exact Hpd.
Qed.

Lemma Video_save_unfold (o : instance) (w : World) :
  Video_save o w
  = Model_save (self_after (Video_save_stamps o w))
      (world_after (Video_save_stamps o w)).
Proof.
  unfold Video_save. unfold bind at 1.
  rewrite Video_save_stamps_outcome. reflexivity.
Qed.

Lemma Video_save_publish_date (o : instance) (w : World) :
  publish_date (fields (self_after (Video_save o w)))
  = match publish_date (fields o) with
    | Some d => Some d
    | None => if is_public (fields o) then Some (clock w (S (ticks w))) else None
    end.
Proof.
  rewrite Video_save_unfold, Model_save_publish_date.
  apply Video_save_stamps_publish_date.
Qed.

Lemma Video_save_ticks (o : instance) (w : World) :
  (S (ticks w) < ticks (world_after (Video_save o w)))%nat.
Proof.
  rewrite Video_save_unfold.
  pose proof (Model_save_modified_date (self_after (Video_save_stamps o w))
                (world_after (Video_save_stamps o w))) as [Hm _].
  pose proof (Video_save_stamps_world o w) as (_ & _ & Hs).
  simpl in *. lia.
Qed.

(** ** [save] *)

(** C1. When [publish_date] is [None] at the call of [save]: with
    [is_public] set, [save] stores in [publish_date] the time it reads from
    the clock at line 86, the second reading of the call; with [is_public]
    not set, [publish_date] is still [None] after [save]. This holds whether
    or not the write of the row is refused. *)
Theorem C1_save_sets_publish_date_when_public (self : instance) (w : World) :
  publish_date (fields self) = None ->
  (is_public (fields self) = true ->
     publish_date (fields (self_after (Video_save self w)))
     = Some (clock w (S (ticks w)))
     /\ (ticks w <= S (ticks w) < ticks (world_after (Video_save self w)))%nat)
  /\ (is_public (fields self) = false ->
      publish_date (fields (self_after (Video_save self w))) = None).
Proof.
  intros Hnone. rewrite Video_save_publish_date, Hnone.
  pose proof (Video_save_ticks self w).
  split; intros ->; [split; [reflexivity | lia] | reflexivity].
Qed.

Lemma C1_witness :
  publish_date (fields (of_Video sample_video)) = None /\
  ((is_public (fields (of_Video sample_video)) = true ->
     publish_date (fields (self_after (Video_save (of_Video sample_video) sample_world)))
     = Some (clock sample_world (S (ticks sample_world)))
     /\ (ticks sample_world <= S (ticks sample_world)
         < ticks (world_after (Video_save (of_Video sample_video) sample_world)))%nat)
  /\ (is_public (fields (of_Video sample_video)) = false ->
      publish_date (fields (self_after (Video_save (of_Video sample_video) sample_world)))
      = None)).
Proof.
  split; [reflexivity |].
  apply (C1_save_sets_publish_date_when_public (of_Video sample_video) sample_world).
  reflexivity.
Defined.

Lemma resave_publish_date (flags : list bool) (T : datetime) :
  forall (self : instance) (w : World),
    publish_date (fields self) = Some T ->
    publish_date (fields (resave flags self w).1) = Some T.
Proof.
  induction flags as [|b rest IH]; intros self w HT; simpl.
  - exact HT.
  - apply IH. rewrite Video_save_publish_date, fields_update. simpl.
    rewrite HT. reflexivity.
Qed.

(** C2. Once [publish_date] holds a time [T], whatever [T] is, one [save]
    leaves it equal to [T] for either value of [is_public], and so does any
    number of saves with [is_public] set anew before each. *)
Theorem C2_save_keeps_publish_date (self : instance) (w : World) (T : datetime)
    (flags : list bool) :
  publish_date (fields self) = Some T ->
  publish_date (fields (self_after (Video_save self w))) = Some T
  /\ publish_date (fields (resave flags self w).1) = Some T.
Proof.
  intros HT. split.
  - rewrite Video_save_publish_date, HT. reflexivity.
  - apply resave_publish_date, HT.
Qed.

Lemma C2_witness :
  let self := of_Video (set_publish_date (Some (mk_datetime 1999 12 31 23 59 59 0))
                          sample_draft) in
  publish_date (fields self) = Some (mk_datetime 1999 12 31 23 59 59 0) /\
  (publish_date (fields (self_after (Video_save self sample_world)))
   = Some (mk_datetime 1999 12 31 23 59 59 0)
   /\ publish_date (fields (resave [true; false; true] self sample_world).1)
     = Some (mk_datetime 1999 12 31 23 59 59 0)).
Proof.
  split; [reflexivity |].
  apply (C2_save_keeps_publish_date _ sample_world
           (mk_datetime 1999 12 31 23 59 59 0) [true; false; true]).
  reflexivity.
Defined.


(** ** [strftime] *)

(** A check run on every number of a range holds on the range. *)
Lemma range_check (P : Z -> bool) (lo hi : Z) :
  forallb (fun k => P (lo + Z.of_nat k)) (seq 0 (Z.to_nat (hi - lo))) = true ->
  forall y, lo <= y < hi -> P y = true.
Proof.
  intros Hall y Hy.
  rewrite forallb_forall in Hall.
  specialize (Hall (Z.to_nat (y - lo))).
  replace (lo + Z.of_nat (Z.to_nat (y - lo))) with y in Hall by lia.
  apply Hall. apply in_seq. lia.
Qed.

Lemma decimal_four_digits (y : Z) :
  1000 <= y <= 9999 -> decimal y = four_digits y.
Proof.
  intros Hy.
  apply String.eqb_eq.
  apply (range_check (fun y => String.eqb (decimal y) (four_digits y)) 1000 10000).
  - vm_compute. reflexivity.
  - lia.
Qed.

Lemma pad2_two_digits (n : Z) :
  0 <= n <= 99 -> pad2 n = two_digits n.
Proof.
  intros Hn.
  apply String.eqb_eq.
  apply (range_check (fun n => String.eqb (pad2 n) (two_digits n)) 0 100).
  - vm_compute. reflexivity.
  - lia.
Qed.

Lemma lower_strftime_b (d : datetime) :
  1 <= month d <= 12 ->
  lower (strftime_b d) = nth (Z.to_nat (month d - 1)) month_keys ""
  /\ String.length (lower (strftime_b d)) = 3%nat.
Proof.
  intros Hm. unfold strftime_b.
  assert (Hk : (Z.to_nat (month d - 1) < 12)%nat) by lia.
  remember (Z.to_nat (month d - 1)) as k eqn:Ek. clear Ek.
  do 12 (destruct k as [|k]; [split; reflexivity |]).
  lia.
Qed.

Lemma valid_datetime_bounds (d : datetime) :
  valid_datetime d = true ->
  1 <= year d <= 9999 /\ 1 <= month d <= 12 /\ 1 <= day d <= 31.
Proof.
  unfold valid_datetime, days_in_month. intros H.
  repeat (apply andb_prop in H; destruct H as [H ?]).
  repeat match goal with
         | H : (_ <=? _) = true |- _ => apply Z.leb_le in H
         end.
  repeat split; try lia.
  destruct (month d =? 2); [destruct (is_leap (year d)); lia |].
  destruct ((month d =? 4) || (month d =? 6) || (month d =? 9) || (month d =? 11)); lia.
Qed.

Lemma append_empty (s : string) : s +:+ "" = s.
Proof.
  induction s as [|a s IH]; [reflexivity |].
  change (String a (s +:+ "") = String a s). f_equal. exact IH.
Qed.

Lemma strftime_Y (d : datetime) :
  1900 <= year d <= 9999 -> strftime d "%Y" = Ok (four_digits (year d)).
Proof.
  intros Hy. unfold strftime.
  destruct (year d <? 1900) eqn:E; [apply Z.ltb_lt in E; lia |].
  simpl. unfold directive. simpl.
  rewrite decimal_four_digits by lia.
  reflexivity.
Qed.

Lemma strftime_d (d : datetime) :
  1900 <= year d -> 1 <= day d <= 31 -> strftime d "%d" = Ok (two_digits (day d)).
Proof.
  intros Hy Hd. unfold strftime.
  destruct (year d <? 1900) eqn:E; [apply Z.ltb_lt in E; lia |].
  simpl. unfold directive. simpl.
  rewrite pad2_two_digits by lia.
  reflexivity.
Qed.

Lemma strftime_b_expand (d : datetime) :
  1900 <= year d -> strftime d "%b" = Ok (strftime_b d).
Proof.
  intros Hy. unfold strftime.
  destruct (year d <? 1900) eqn:E; [apply Z.ltb_lt in E; lia |].
  simpl. unfold directive. simpl.
  rewrite append_empty. reflexivity.
Qed.

Lemma month_keys_shape (k : nat) :
  (k < 12)%nat ->
  String.length (nth k month_keys "") = 3%nat
  /\ lower (nth k month_keys "") = nth k month_keys "".
Proof.
  intros Hk.
  do 12 (destruct k as [|k]; [split; reflexivity |]).
  lia.
Qed.

(** ** [get_absolute_url] *)

(** C4, amended. [get_absolute_url] is a function of the record. With
    [publish_date] set to a date of the year 1900 or later, it is the path
    [reverse] gives for the detail view under the keys [year] (four
    digits), [month] (the lowercase three-letter abbreviation), [day] (two
    digits) and [slug], all taken from [publish_date] and the stored slug.
    With [publish_date] unset and the record stored, it is the path of the
    view by identifier. Two records with the same [publish_date] and slug,
    or without [publish_date] and with the same identifier, have the same
    path. *)
Theorem C4_get_absolute_url_keys
    (rev : string -> list value -> gmap string value -> result string)
    (self : Video) :
  (forall d, publish_date self = Some d -> valid_datetime d = true ->
     1900 <= year d ->
     Video_get_absolute_url rev self
     = rev "videostream_video_detail" []
         {[ "year" := PyStr (four_digits (year d));
            "month" := PyStr (nth (Z.to_nat (month d - 1)) month_keys "");
            "day" := PyStr (two_digits (day d));
            "slug" := PyStr (slug self) ]}
     /\ String.length (nth (Z.to_nat (month d - 1)) month_keys "") = 3%nat
     /\ lower (nth (Z.to_nat (month d - 1)) month_keys "")
        = nth (Z.to_nat (month d - 1)) month_keys "")
  /\ (forall i, publish_date self = None -> id self = Some i ->
        Video_get_absolute_url rev self
        = rev "videostream_video_detail_id" [PyInt i] ∅)
  /\ (forall other d, publish_date self = Some d ->
        publish_date other = Some d -> slug other = slug self ->
        Video_get_absolute_url rev other = Video_get_absolute_url rev self)
  /\ (forall other, publish_date self = None -> publish_date other = None ->
        id other = id self ->
        Video_get_absolute_url rev other = Video_get_absolute_url rev self).
Proof.
  unfold Video_get_absolute_url, permalink, Video_get_absolute_url_bits.
  split; [| split; [| split]].
  - intros d Hd Hvalid Hy. rewrite Hd.
    destruct (valid_datetime_bounds d Hvalid) as (Hyr & Hm & Hday).
    rewrite strftime_Y, strftime_b_expand, strftime_d by lia. simpl.
    destruct (lower_strftime_b d Hm) as [-> _].
    split; [reflexivity |].
    apply month_keys_shape. lia.
  - intros i Hnone Hid. rewrite Hnone, Hid. reflexivity.
  - intros other d Hs Ho Hslug. rewrite Hs, Ho, Hslug. reflexivity.
  - intros other Hs Ho Hid. rewrite Hs, Ho, Hid. reflexivity.
Qed.

Lemma C4_witness :
  publish_date sample_published = Some (sample_clock 1)
  /\ valid_datetime (sample_clock 1) = true
  /\ 1900 <= year (sample_clock 1)
  /\ Video_get_absolute_url sample_reverse sample_published
     = Ok "/2011/may/17/intro-clip/"
  /\ publish_date sample_stored_draft = None
  /\ id sample_stored_draft = Some 3
  /\ Video_get_absolute_url sample_reverse sample_stored_draft = Ok "/3/".
Proof.
  assert (Hy : 1900 <= year (sample_clock 1)) by (simpl; lia).
  destruct (C4_get_absolute_url_keys sample_reverse sample_published)
    as (Hset & _).
  destruct (C4_get_absolute_url_keys sample_reverse sample_stored_draft)
    as (_ & Hunset & _).
  destruct (Hset (sample_clock 1) eq_refl eq_refl Hy) as [Hurl _].
  split; [reflexivity |]. split; [reflexivity |]. split; [exact Hy |].
  split; [rewrite Hurl; vm_compute; reflexivity |].
  split; [reflexivity |]. split; [reflexivity |].
  rewrite (Hunset 3 eq_refl eq_refl). vm_compute. reflexivity.
Defined.

(** C4 as stated fails on a publication date before 1900: the date is one
    [datetime] accepts and the record is stored, yet [get_absolute_url]
    raises [ValueError] at [strftime] and returns no path, whatever the URL
    configuration. *)
Lemma C4_counterexample :
  valid_datetime (mk_datetime 999 1 1 0 0 0 0) = true
  /\ id sample_old = Some 2
  /\ publish_date sample_old = Some (mk_datetime 999 1 1 0 0 0 0)
  /\ forall rev, Video_get_absolute_url rev sample_old = Raise ValueError.
Proof. repeat split. Qed.

(** ** [video_type] *)

Lemma BasicVideo_video_type_raises (b : BasicVideo) (w : World) :
  BasicVideo_video_type b w = mk_run (Raise AttributeError) b w.
Proof. reflexivity. Qed.

(** C5, at the failing input. For a stored [HTML5Video] of type [MP4] the
    label the table gives is ["vidoe/mp4"], not ["video/mp4"]; the three
    other types have the labels of the claim. Moreover [video_type] on the
    [BasicVideo] that holds the row does not reach the table: it reads
    [self.html5video], which the [ForeignKey] of line 117 does not define
    (its accessor is [html5video_set]), and raises [AttributeError]. *)
Theorem C5_mp4_label_misspelt :
  self_after second_payload = mk_HTML5Video (Some 2) MP4 None (Some 1)
  /\ HTML5Video_get_video_type_display (self_after second_payload)
     = PyStr "vidoe/mp4"
  /\ HTML5Video_get_video_type_display (self_after second_payload)
     <> PyStr "video/mp4"
  /\ (forall i f b,
        HTML5Video_get_video_type_display (mk_HTML5Video i OGG f b) = PyStr "video/ogg"
        /\ HTML5Video_get_video_type_display (mk_HTML5Video i WEBM f b) = PyStr "video/webm"
        /\ HTML5Video_get_video_type_display (mk_HTML5Video i FLASH f b) = PyStr "video/flv")
  /\ accessor_name HTML5Video_basic_video "HTML5Video" = "html5video_set"
  /\ outcome (BasicVideo_video_type saved_basic_video (world_after second_payload))
     = Raise AttributeError.
Proof.
  split; [vm_compute; reflexivity |].
  split; [vm_compute; reflexivity |].
  split; [vm_compute; discriminate |].
  repeat split.
Qed.

(** C6. On every instance that holds no [HTML5Video] row, [video_type()]
    fails, with [AttributeError], and leaves the instance and the process as
    they were. Only the body of [BasicVideo] defines the method: neither
    [Video] nor [EmbedVideo] nor [FlashVideo] has it. *)
Theorem C6_video_type_fails_without_payload (o : instance) (w : World) :
  html5_payloads o w = 0%nat ->
  call_video_type o w = mk_run (Raise AttributeError) o w
  /\ (forall c, resolve c "video_type"
                = match c with
                  | BasicVideo_class => Some BasicVideo_class
                  | _ => None
                  end).
Proof.
  intros _. split.
  - destruct o; reflexivity.
  - intros c. destruct c; reflexivity.
Qed.

Lemma C6_witness :
  html5_payloads (of_EmbedVideo sample_embed) (world_after second_payload) = 0%nat
  /\ outcome (call_video_type (of_EmbedVideo sample_embed) (world_after second_payload))
     = Raise AttributeError.
Proof.
  split; [reflexivity |].
  destruct (C6_video_type_fails_without_payload (of_EmbedVideo sample_embed)
              (world_after second_payload) eq_refl) as [H _].
  rewrite H. reflexivity.
Defined.

(** C10, at the failing input. An [HTML5Video] made without [video_type]
    has the type [WEBM] (line 107), and so has the row saved for a stored
    [BasicVideo], whose own label is ["video/webm"]. But [video_type()] on
    the [BasicVideo] that holds this row, and no other, does not return
    that label: it reads [self.html5video], which the [ForeignKey] of line
    117 does not define, and raises [AttributeError]. *)
Theorem C10_default_webm_not_resolved :
  (forall f b, video_type (HTML5Video_init None f b) = WEBM)
  /\ self_after first_payload = mk_HTML5Video (Some 1) WEBM None (Some 1)
  /\ HTML5Video_get_video_type_display (self_after first_payload)
     = PyStr "video/webm"
  /\ videos (world_after first_payload) !! 1
     = Some (of_BasicVideo saved_basic_video)
  /\ html5video_set 1 (html5videos (world_after first_payload)) !! 1
     = Some (self_after first_payload)
  /\ html5_payloads (of_BasicVideo saved_basic_video) (world_after first_payload)
     = 1%nat
  /\ outcome (BasicVideo_video_type saved_basic_video (world_after first_payload))
     = Raise AttributeError
  /\ outcome (call_video_type (of_BasicVideo saved_basic_video)
                (world_after first_payload))
     <> Ok (PyStr "video/webm").
Proof.
  split; [reflexivity |].
  split; [vm_compute; reflexivity |].
  split; [vm_compute; reflexivity |].
  split; [vm_compute; reflexivity |].
  split; [vm_compute; reflexivity |].
  split; [vm_compute; reflexivity |].
  split; [reflexivity |].
  vm_compute. discriminate.
Qed.

(** ** [split] *)

Lemma append_cons (a : ascii) (s t : string) :
  String a s +:+ t = String a (s +:+ t).
Proof. reflexivity. Qed.

Lemma split_cons (c : ascii) (s : string) :
  exists p ps, split c s = p :: ps.
Proof.
  induction s as [|a s (p & ps & IH)]; simpl.
  - eauto.
  - destruct (Ascii.eqb a c); [eauto |]. rewrite IH. eauto.
Qed.

Lemma split_no_sep (c : ascii) (s : string) :
  occurs c s = false -> split c s = [s].
Proof.
  induction s as [|a s IH]; simpl; intros H; [reflexivity |].
  apply orb_false_elim in H as [Ha Hs].
  rewrite Ha, (IH Hs). reflexivity.
Qed.

Lemma split_occurs (c : ascii) (s : string) :
  occurs c s = true -> exists a b rest, split c s = a :: b :: rest.
Proof.
  induction s as [|x s IH]; simpl; intros H; [discriminate |].
  destruct (Ascii.eqb x c) eqn:E; simpl in H.
  - destruct (split_cons c s) as (p & ps & ->). eauto.
  - destruct (IH H) as (a & b & rest & ->). eauto.
Qed.

Lemma split_at_sep (c : ascii) (w h : string) :
  occurs c w = false -> split c (w +:+ String c h) = w :: split c h.
Proof.
  induction w as [|a w IH]; intros H.
  - change ("" +:+ String c h) with (String c h). simpl.
    rewrite Ascii.eqb_refl. reflexivity.
  - rewrite append_cons. simpl in *.
    apply orb_false_elim in H as [Ha Hw].
    rewrite Ha, (IH Hw). reflexivity.
Qed.

(** ** [get_player_size] *)

Lemma get_player_size_parts (settings : gmap string string) (self : FlashVideo)
    (s a b : string) (rest : list string) :
  settings !! "VIDEOSTREAM_SIZE" = Some s ->
  split "x" s = a :: b :: rest ->
  FlashVideo_get_player_size settings self
  = Ok ("width: " +:+ a +:+ "px; height: " +:+ b +:+ "px;").
Proof.
  intros Hs Hsplit. unfold FlashVideo_get_player_size.
  rewrite Hs. simpl. rewrite Hsplit. reflexivity.
Qed.

(** C7. For a value [w ++ "x" ++ h] of [VIDEOSTREAM_SIZE], where [w] and [h]
    are the two sides of the delimiter and so hold no [x], the result is
    ["width: " ++ w ++ "px; height: " ++ h ++ "px;"]; when the setting is
    absent the default ["320x240"] gives ["width: 320px; height: 240px;"]. *)
Theorem C7_get_player_size_style (settings : gmap string string)
    (self : FlashVideo) (w h : string) :
  occurs "x" w = false ->
  occurs "x" h = false ->
  FlashVideo_get_player_size
    (<["VIDEOSTREAM_SIZE" := w +:+ "x" +:+ h]> settings) self
  = Ok ("width: " +:+ w +:+ "px; height: " +:+ h +:+ "px;")
  /\ FlashVideo_get_player_size (delete "VIDEOSTREAM_SIZE" settings) self
     = Ok "width: 320px; height: 240px;".
Proof.
  intros Hw Hh. split.
  - apply (get_player_size_parts _ self (w +:+ "x" +:+ h) w h []).
    + apply lookup_insert_eq.
    + change (w +:+ "x" +:+ h) with (w +:+ String "x" h).
      rewrite (split_at_sep _ _ _ Hw), (split_no_sep _ _ Hh). reflexivity.
  - unfold FlashVideo_get_player_size. rewrite lookup_delete_eq. reflexivity.
Qed.

Lemma C7_witness :
  occurs "x" "1920" = false
  /\ occurs "x" "1080" = false
  /\ FlashVideo_get_player_size {[ "VIDEOSTREAM_SIZE" := "1920x1080" ]} sample_flash
     = Ok "width: 1920px; height: 1080px;"
  /\ FlashVideo_get_player_size ∅ sample_flash = Ok "width: 320px; height: 240px;".
Proof.
  split; [reflexivity |]. split; [reflexivity |].
  destruct (C7_get_player_size_style ∅ sample_flash "1920" "1080" eq_refl eq_refl)
    as [Hset Hunset].
  split; [exact Hset | exact Hunset].
Defined.

(** C8 as stated fails on a value with three parts: the call succeeds and
    uses the first two. *)
Lemma C8_counterexample :
  split "x" "1x2x3" = ["1"; "2"; "3"]
  /\ FlashVideo_get_player_size {[ "VIDEOSTREAM_SIZE" := "1x2x3" ]} sample_flash
     = Ok "width: 1px; height: 2px;"
  /\ raises (FlashVideo_get_player_size {[ "VIDEOSTREAM_SIZE" := "1x2x3" ]}
               sample_flash) = false.
Proof. split; [reflexivity |]. split; vm_compute; reflexivity. Qed.

(** C8, amended. [get_player_size] fails exactly when the value of
    [VIDEOSTREAM_SIZE] holds no [x]; the failure is the [IndexError] of
    [size[1]]. On every other value it succeeds with the first two of the
    parts, however many there are. *)
Theorem C8_get_player_size_fails_iff_no_delimiter
    (settings : gmap string string) (self : FlashVideo) (s : string) :
  (raises (FlashVideo_get_player_size (<["VIDEOSTREAM_SIZE" := s]> settings) self)
   = true <-> occurs "x" s = false)
  /\ (occurs "x" s = false ->
      FlashVideo_get_player_size (<["VIDEOSTREAM_SIZE" := s]> settings) self
      = Raise IndexError)
  /\ (occurs "x" s = true ->
      exists a b rest,
        split "x" s = a :: b :: rest
        /\ FlashVideo_get_player_size (<["VIDEOSTREAM_SIZE" := s]> settings) self
           = Ok ("width: " +:+ a +:+ "px; height: " +:+ b +:+ "px;")).
Proof.
  assert (Hno : occurs "x" s = false ->
                FlashVideo_get_player_size (<["VIDEOSTREAM_SIZE" := s]> settings) self
                = Raise IndexError).
  { intros H. unfold FlashVideo_get_player_size.
    rewrite lookup_insert_eq. simpl. rewrite (split_no_sep _ _ H). reflexivity. }
  assert (Hyes : occurs "x" s = true ->
                 exists a b rest,
                   split "x" s = a :: b :: rest
                   /\ FlashVideo_get_player_size
                        (<["VIDEOSTREAM_SIZE" := s]> settings) self
                      = Ok ("width: " +:+ a +:+ "px; height: " +:+ b +:+ "px;")).
  { intros H. destruct (split_occurs _ _ H) as (a & b & rest & Hsplit).
    exists a, b, rest. split; [exact Hsplit |].
    apply (get_player_size_parts _ self s a b rest);
      [apply lookup_insert_eq | exact Hsplit]. }
  split; [| split; assumption].
  split.
  - intros Hr. destruct (occurs "x" s) eqn:E; [| reflexivity].
    destruct (Hyes eq_refl) as (a & b & rest & _ & Heq).
    rewrite Heq in Hr. discriminate.
  - intros H. rewrite (Hno H). reflexivity.
Qed.

Lemma C8_witness :
  occurs "x" "bad" = false
  /\ FlashVideo_get_player_size {[ "VIDEOSTREAM_SIZE" := "bad" ]} sample_flash
     = Raise IndexError.
Proof.
  split; [reflexivity |].
  destruct (C8_get_player_size_fails_iff_no_delimiter ∅ sample_flash "bad")
    as (_ & Hno & _).
  exact (Hno eq_refl).
Defined.

(** ** What one call of [save] does, path by path *)

Lemma Video_save_stamps_run (o : instance) (w : World) :
  Video_save_stamps o w
  = let o1 := update (set_modified_date (Some (clock w (ticks w)))) o in
    if bool_decide (publish_date (fields o) = None) && is_public (fields o)
    then mk_run (Ok tt)
           (update (set_publish_date (Some (clock w (S (ticks w))))) o1)
           (set_ticks (S (S (ticks w))) w)
    else mk_run (Ok tt) o1 (set_ticks (S (ticks w)) w).
Proof.
  unfold Video_save_stamps, bind, getattr, setattr, now, ret. simpl.
  rewrite fields_update. simpl.
  destruct (bool_decide (publish_date (fields o) = None) && is_public (fields o));
    reflexivity.
Qed.

Lemma stored_add (o : instance) (w : World) :
  match id (fields o) with
  | Some i => bool_decide (videos w !! i = None)
  | None => true
  end = negb (stored o w).
Proof.
  unfold stored. destruct (id (fields o)) as [i|]; [| reflexivity].
  destruct (videos w !! i) eqn:E.
  - rewrite bool_decide_eq_false_2 by discriminate.
    rewrite bool_decide_eq_true_2 by eauto. reflexivity.
  - rewrite bool_decide_eq_true_2 by reflexivity.
    rewrite bool_decide_eq_false_2; [reflexivity |].
    intros [? ?]. discriminate.
Qed.

Lemma Model_save_run (o : instance) (w : World) :
  Model_save o w
  = let pk := id (fields o) in
    let t := videos w in
    let add := negb (stored o w) in
    let o1 := if add then update (set_created_date (Some (clock w (ticks w)))) o
              else o in
    let n := if add then S (ticks w) else ticks w in
    let o2 := update (set_modified_date (Some (clock w n))) o1 in
    if refused o w
    then mk_run (Raise IntegrityError) o2 (set_ticks (S n) w)
    else
      let i := match pk with Some i => i | None => next_id t end in
      let o3 := update (set_id (Some i)) o2 in
      mk_run (Ok tt) o3 (set_videos (<[i := o3]> t) (set_ticks (S n) w)).
Proof.
  unfold refused. cbv zeta.
  pose proof (stored_add o w) as Hadd.
  unfold Model_save, bind, getattr, world, setattr, set_world, now, ret, raise.
  simpl.
  destruct (stored o w); simpl in *; rewrite Hadd; simpl;
    rewrite ?fields_update; simpl; rewrite ?fields_update; simpl;
    match goal with
    | |- context [slug_taken ?a ?b ?c] => destruct (slug_taken a b c)
    end; simpl; try reflexivity;
    destruct (bool_decide (created_date (fields o) = None)); reflexivity.
Qed.

Lemma slug_taken_spec (s : string) (own : option Z) (t : gmap Z instance) :
  slug_taken s own t = true
  <-> exists k o, t !! k = Some o /\ slug (fields o) = s /\ Some k <> own.
Proof.
  unfold slug_taken. rewrite bool_decide_eq_true. reflexivity.
Qed.

(** The fields [save] does not assign are those of the instance handed in. *)
Lemma Video_save_stamps_frame (o : instance) (w : World) :
  let o' := self_after (Video_save_stamps o w) in
  o' = update (restamp (fields o')) o.
Proof.
  rewrite Video_save_stamps_run. simpl.
  destruct (bool_decide (publish_date (fields o) = None) && is_public (fields o));
    destruct o as [v|[v]|[v ? ?]|[v ? ? ? ?]]; destruct v; reflexivity.
Qed.

Lemma Model_save_frame (o : instance) (w : World) :
  let o' := self_after (Model_save o w) in
  o' = update (restamp (fields o')) o.
Proof.
  rewrite Model_save_run. cbv zeta.
  destruct (refused o w); destruct (stored o w); simpl;
    destruct o as [v|[v]|[v ? ?]|[v ? ? ? ?]]; destruct v as [i ? ? ? ? ? ? ? ? ?];
    destruct i; reflexivity.
Qed.

Lemma Video_save_stamps_keeps (o : instance) (w : World) :
  let r := Video_save_stamps o w in
  id (fields (self_after r)) = id (fields o)
  /\ slug (fields (self_after r)) = slug (fields o)
  /\ created_date (fields (self_after r)) = created_date (fields o)
  /\ is_public (fields (self_after r)) = is_public (fields o)
  /\ videos (world_after r) = videos w.
Proof.
  rewrite Video_save_stamps_run. simpl.
  destruct (bool_decide (publish_date (fields o) = None) && is_public (fields o));
    simpl; rewrite ?fields_update; simpl; rewrite ?fields_update; simpl;
    repeat split; reflexivity.
Qed.

Lemma Video_save_stamps_stored (o : instance) (w : World) :
  stored (self_after (Video_save_stamps o w)) (world_after (Video_save_stamps o w))
  = stored o w.
Proof.
  destruct (Video_save_stamps_keeps o w) as (Hid & _ & _ & _ & Hv).
  simpl in *. unfold stored. rewrite Hid, Hv. reflexivity.
Qed.

Lemma Video_save_stamps_refused (o : instance) (w : World) :
  refused (self_after (Video_save_stamps o w)) (world_after (Video_save_stamps o w))
  = refused o w.
Proof.
  unfold refused. rewrite Video_save_stamps_stored.
  destruct (Video_save_stamps_keeps o w) as (Hid & Hslug & Hc & _ & Hv).
  simpl in *. rewrite Hid, Hslug, Hc, Hv. reflexivity.
Qed.

Lemma refused_false (o : instance) (w : World) :
  refused o w = false ->
  slug_taken (slug (fields o)) (id (fields o)) (videos w) = false
  /\ (stored o w = true -> is_Some (created_date (fields o))).
Proof.
  unfold refused. intros H. apply orb_false_elim in H as [Hs Hc].
  split; [exact Hs |]. intros Hst. rewrite Hst in Hc. simpl in Hc.
  apply bool_decide_eq_false in Hc.
  destruct (created_date (fields o)); [eauto | congruence].
Qed.

(** The two ways a call of [save] ends. *)
Lemma Video_save_cases (o : instance) (w : World) :
  let r := Video_save o w in
  let pk := id (fields o) in
  (refused o w = true
   /\ outcome r = Raise IntegrityError
   /\ videos (world_after r) = videos w
   /\ id (fields (self_after r)) = pk)
  \/ (refused o w = false
      /\ outcome r = Ok tt
      /\ exists i,
          i = match pk with Some i => i | None => next_id (videos w) end
          /\ id (fields (self_after r)) = Some i
          /\ videos (world_after r) = <[i := self_after r]> (videos w)).
Proof.
  simpl. rewrite Video_save_unfold.
  destruct (Video_save_stamps_keeps o w) as (Hid & _ & _ & _ & Hv).
  pose proof (Video_save_stamps_refused o w) as Href.
  simpl in *. rewrite Model_save_run. cbv zeta. rewrite Href, Hid, Hv.
  destruct (refused o w); [left | right]; simpl.
  - split; [reflexivity |]. split; [reflexivity |]. split; [exact Hv |].
    rewrite fields_update. simpl.
    match goal with
    | |- context [if ?c then _ else _] => destruct c
    end; rewrite ?fields_update; simpl; exact Hid.
  - split; [reflexivity |]. split; [reflexivity |].
    eexists. split; [reflexivity |].
    rewrite fields_update. simpl. split; reflexivity.
Qed.

(** ** The table of [HTML5Video]: who owns a row *)

Lemma largest_key_above {A : Type} (t : gmap Z A) (k : Z) :
  is_Some (t !! k) -> exists m, largest_key t = Some m /\ k <= m.
Proof.
  unfold largest_key. revert k.
  apply (map_fold_weak_ind
           (fun r (m : gmap Z A) =>
              forall k, is_Some (m !! k) -> exists x, r = Some x /\ k <= x)).
  - intros j Hj. rewrite lookup_empty in Hj. destruct Hj as [? Hj]. discriminate.
  - intros i x m r Hi IH j Hj.
    destruct (decide (i = j)) as [-> | Hne].
    + destruct r as [y|]; eexists; (split; [reflexivity | lia]).
    + rewrite lookup_insert_ne in Hj by exact Hne.
      destruct (IH j Hj) as (y & -> & Hy).
      eexists. split; [reflexivity | lia].
Qed.

Lemma next_id_above {A : Type} (t : gmap Z A) (k : Z) :
  is_Some (t !! k) -> k < next_id t.
Proof.
  intros Hk. unfold next_id.
  destruct (largest_key_above t k Hk) as (m & -> & Hm). lia.
Qed.

Lemma next_id_fresh {A : Type} (t : gmap Z A) : t !! next_id t = None.
Proof.
  destruct (t !! next_id t) eqn:E; [| reflexivity].
  pose proof (next_id_above t (next_id t) (mk_is_Some _ _ E)). lia.
Qed.

Lemma HTML5Video_save_run (h : HTML5Video) (w : World) :
  HTML5Video_save h w
  = if fits_integer_or_null (html5_id h) && fits_integer (video_type h)
       && fits_integer_or_null (basic_video_id h)
    then
      match basic_video_id h with
      | None => mk_run (Raise IntegrityError) h w
      | Some _ =>
          let i := match html5_id h with
                   | Some i => i
                   | None => next_id (html5videos w)
                   end in
          mk_run (Ok tt) (set_html5_id (Some i) h)
            (set_html5videos (<[i := set_html5_id (Some i) h]> (html5videos w)) w)
      end
    else mk_run (Raise OverflowError) h w.
Proof.
  unfold HTML5Video_save, bind, getattr, setattr, world, set_world, raise. simpl.
  destruct (fits_integer_or_null (html5_id h) && fits_integer (video_type h)
            && fits_integer_or_null (basic_video_id h)); simpl; [| reflexivity].
  destruct (basic_video_id h); reflexivity.
Qed.

Lemma Video_save_html5videos (o : instance) (w : World) :
  html5videos (world_after (Video_save o w)) = html5videos w.
Proof.
  rewrite Video_save_unfold, Model_save_html5videos.
  apply (Video_save_stamps_world o w).
Qed.

Lemma HTML5Video_save_videos (h : HTML5Video) (w : World) :
  videos (world_after (HTML5Video_save h w)) = videos w.
Proof.
  rewrite HTML5Video_save_run.
  destruct (_ && _); [destruct (basic_video_id h) |]; reflexivity.
Qed.









(* ===================================================================== *)
(** * Further properties of the module                                     *)
(* ===================================================================== *)

(** ** [save] and the table of videos *)

(** X1. When [save] returns, the instance has a key and the table holds the
    instance, as it is after the call, under that key. An instance that had
    a key keeps it; one that had none gets a key no row had. *)
Theorem X1_save_stores_the_instance (self : instance) (w : World) :
  outcome (Video_save self w) = Ok tt ->
  exists i,
    id (fields (self_after (Video_save self w))) = Some i
    /\ videos (world_after (Video_save self w)) !! i
       = Some (self_after (Video_save self w))
    /\ (forall j, id (fields self) = Some j -> i = j)
    /\ (id (fields self) = None -> videos w !! i = None).
Proof.
  intros Hok.
  destruct (Video_save_cases self w) as [(_ & Hr & _) | (_ & _ & i & Hi & Hid & Hv)];
    simpl in *; [congruence |].
  exists i. split; [exact Hid |]. split.
  - rewrite Hv. apply lookup_insert_eq.
  - split.
    + intros j Hj. rewrite Hj in Hi. exact Hi.
    + intros Hnone. rewrite Hnone in Hi. subst i. apply next_id_fresh.
Qed.

Lemma X1_witness :
  outcome (Video_save (of_Video sample_video) sample_world) = Ok tt
  /\ exists i,
      id (fields (self_after (Video_save (of_Video sample_video) sample_world)))
      = Some i
      /\ videos (world_after (Video_save (of_Video sample_video) sample_world)) !! i
         = Some (self_after (Video_save (of_Video sample_video) sample_world)).
Proof.
  split; [reflexivity |].
  destruct (X1_save_stores_the_instance (of_Video sample_video) sample_world eq_refl)
    as (i & Hid & Hrow & _).
  exists i. split; [exact Hid | exact Hrow].
Defined.

(** X2. [save] does not return when a row other than the instance's own
    has its slug, nor when the row of the instance is in the table and the
    instance has no [created_date]. A [save] that does not return leaves
    both tables and the key of the instance as they were. *)
Theorem X2_save_refused_on_taken_slug (self : instance) (w : World) :
  ((exists k o, videos w !! k = Some o
                /\ slug (fields o) = slug (fields self)
                /\ Some k <> id (fields self)) ->
   raises (outcome (Video_save self w)) = true)
  /\ (stored self w = true -> created_date (fields self) = None ->
      raises (outcome (Video_save self w)) = true)
  /\ (raises (outcome (Video_save self w)) = true ->
      videos (world_after (Video_save self w)) = videos w
      /\ html5videos (world_after (Video_save self w)) = html5videos w
      /\ id (fields (self_after (Video_save self w))) = id (fields self)).
Proof.
  destruct (Video_save_cases self w)
    as [(Ht & Hr & Hv & Hid) | (Ht & Hr & i & Hi & Hid & Hv)]; simpl in *;
    rewrite Hr; simpl.
  - split; [reflexivity |]. split; [reflexivity |].
    intros _. split; [exact Hv |].
    split; [apply Video_save_html5videos | exact Hid].
  - apply refused_false in Ht as [Hslug Hdate].
    split; [| split; [| discriminate]].
    + intros H. apply slug_taken_spec in H. congruence.
    + intros Hst Hnone. destruct (Hdate Hst) as [d Hd]. congruence.
Qed.

Lemma X2_witness :
  (exists k o, videos (world_after saved_basic) !! k = Some o
               /\ slug (fields o)
                  = slug (fields (of_EmbedVideo (mk_EmbedVideo sample_video None None)))
               /\ Some k
                  <> id (fields (of_EmbedVideo (mk_EmbedVideo sample_video None None))))
  /\ raises (outcome (Video_save (of_EmbedVideo (mk_EmbedVideo sample_video None None))
                        (world_after saved_basic))) = true
  /\ videos (world_after
               (Video_save (of_EmbedVideo (mk_EmbedVideo sample_video None None))
                  (world_after saved_basic)))
     = videos (world_after saved_basic).
Proof.
  assert (Hrow : exists k o,
             videos (world_after saved_basic) !! k = Some o
             /\ slug (fields o)
                = slug (fields (of_EmbedVideo (mk_EmbedVideo sample_video None None)))
             /\ Some k
                <> id (fields (of_EmbedVideo (mk_EmbedVideo sample_video None None)))).
  { exists 1, (of_BasicVideo saved_basic_video).
    split; [vm_compute; reflexivity |]. split; [reflexivity | discriminate]. }
  destruct (X2_save_refused_on_taken_slug
              (of_EmbedVideo (mk_EmbedVideo sample_video None None))
              (world_after saved_basic)) as (Hslug & _ & Hkeep).
  split; [exact Hrow |]. split; [exact (Hslug Hrow) |].
  exact (proj1 (Hkeep (Hslug Hrow))).
Defined.

Lemma update_restamp_twice (a b : Video) (o : instance) :
  update (restamp a) (update (restamp b) o) = update (restamp a) o.
Proof. destruct o as [v|[v]|[v ? ?]|[v ? ? ? ?]]; reflexivity. Qed.

Lemma Video_save_frame (o : instance) (w : World) :
  self_after (Video_save o w)
  = update (restamp (fields (self_after (Video_save o w)))) o.
Proof.
  rewrite Video_save_unfold.
  pose proof (Model_save_frame (self_after (Video_save_stamps o w))
                (world_after (Video_save_stamps o w))) as Hm.
  pose proof (Video_save_stamps_frame o w) as Hs.
  simpl in *.
  etransitivity; [| apply (update_restamp_twice _
                             (fields (self_after (Video_save_stamps o w))))].
  rewrite <- Hs. exact Hm.
Qed.

Lemma Video_save_slug (o : instance) (w : World) :
  slug (fields (self_after (Video_save o w))) = slug (fields o).
Proof. rewrite Video_save_frame, fields_update. reflexivity. Qed.

Lemma Video_save_is_public (o : instance) (w : World) :
  is_public (fields (self_after (Video_save o w))) = is_public (fields o).
Proof. rewrite Video_save_frame, fields_update. reflexivity. Qed.

Lemma Video_save_created_date_kept (o : instance) (w : World) :
  stored o w = true ->
  created_date (fields (self_after (Video_save o w))) = created_date (fields o).
Proof.
  intros Hs. rewrite Video_save_unfold.
  destruct (Video_save_stamps_keeps o w) as (_ & _ & Hc & _).
  simpl in *. rewrite Model_save_run. cbv zeta.
  rewrite Video_save_stamps_stored, Video_save_stamps_refused, Hs. simpl.
  destruct (refused o w); simpl; rewrite ?fields_update; simpl;
    rewrite ?fields_update; simpl; exact Hc.
Qed.

(** After a [save] that returned the instance has a [created_date]. *)
Lemma Video_save_created_date_set (o : instance) (w : World) :
  outcome (Video_save o w) = Ok tt ->
  is_Some (created_date (fields (self_after (Video_save o w)))).
Proof.
  rewrite Video_save_unfold.
  destruct (Video_save_stamps_keeps o w) as (_ & _ & Hc & _).
  simpl in *. rewrite Model_save_run. cbv zeta.
  rewrite Video_save_stamps_stored, Video_save_stamps_refused.
  destruct (refused o w) eqn:Href; simpl; [discriminate |]. intros _.
  apply refused_false in Href as [_ Hdate].
  destruct (stored o w); simpl; rewrite ?fields_update; simpl;
    rewrite ?fields_update; simpl; rewrite ?fields_update; simpl;
    [rewrite Hc; apply Hdate; reflexivity | eauto].
Qed.

Lemma Video_save_size (o : instance) (w : World) :
  outcome (Video_save o w) = Ok tt ->
  size (videos (world_after (Video_save o w)))
  = if stored o w then size (videos w) else S (size (videos w)).
Proof.
  intros Hok.
  destruct (Video_save_cases o w)
    as [(_ & Hr & _) | (_ & _ & i & Hi & Hid & Hv)]; simpl in *; [congruence |].
  rewrite Hv. unfold stored.
  destruct (id (fields o)) as [j|]; subst i.
  - case_bool_decide as Hj.
    + apply map_size_insert_Some, Hj.
    + apply map_size_insert_None. apply eq_None_not_Some, Hj.
  - apply map_size_insert_None, next_id_fresh.
Qed.

(** X3. In every process that starts with empty tables and saves
    instances, each row of the table of videos carries the key it is stored
    under, and no two rows have the same slug. *)
Theorem X3_keys_and_slugs_stay_unique (w : World) :
  reachable w -> keyed (videos w) /\ slugs_unique (videos w).
Proof.
  induction 1 as [c | o w _ [IHk IHs] | h w _ IH].
  - split.
    + intros k o Hk. simpl in Hk. rewrite lookup_empty in Hk. discriminate.
    + intros k1 k2 o1 o2 Hk. simpl in Hk. rewrite lookup_empty in Hk. discriminate.
  - destruct (Video_save_cases o w)
      as [(_ & _ & Hv & _) | (Ht & _ & i & Hi & Hid & Hv)]; simpl in *.
    + rewrite Hv. split; assumption.
    + rewrite Hv. apply refused_false in Ht as [Ht _].
      assert (Hfree : forall k x, videos w !! k = Some x ->
                slug (fields x) = slug (fields o) -> k = i).
      { intros k x Hk Hslug.
        destruct (decide (k = i)) as [-> | Hne]; [reflexivity |].
        assert (Htaken : slug_taken (slug (fields o)) (id (fields o)) (videos w) = true).
        { apply slug_taken_spec. exists k, x. split; [exact Hk |].
          split; [exact Hslug |].
          destruct (id (fields o)) as [j|]; [subst i; congruence | discriminate]. }
        congruence. }
      split.
      * intros k x Hk. apply lookup_insert_Some in Hk as [[<- <-] | [_ Hk]];
          [exact Hid | apply (IHk k x Hk)].
      * intros k1 k2 o1 o2 H1 H2 Hslug.
        apply lookup_insert_Some in H1 as [[<- <-] | [Hn1 H1]];
          apply lookup_insert_Some in H2 as [[<- <-] | [Hn2 H2]].
        -- reflexivity.
        -- symmetry. apply (Hfree k2 o2 H2).
           rewrite <- Hslug. apply Video_save_slug.
        -- apply (Hfree k1 o1 H1).
           rewrite Hslug. apply Video_save_slug.
        -- apply (IHs k1 k2 o1 o2 H1 H2 Hslug).
  - rewrite HTML5Video_save_videos. exact IH.
Qed.

Lemma X3_witness :
  reachable (world_after second_payload)
  /\ keyed (videos (world_after second_payload))
  /\ slugs_unique (videos (world_after second_payload)).
Proof.
  assert (Hreach : reachable (world_after second_payload)).
  { unfold second_payload, first_payload, saved_basic.
    do 2 apply reachable_HTML5Video_save.
    apply reachable_Video_save, reachable_start. }
  split; [exact Hreach |].
  exact (X3_keys_and_slugs_stay_unique _ Hreach).
Defined.



(** X5. [save] leaves the columns of [Video] it is not written for as
    they are: the title, the slug, the tags, the description and the two
    flags are after the call what they were before, whether or not the write
    is refused, and the instance is still of its class. *)
Theorem X5_save_assigns_key_and_dates_only (self : instance) (w : World) :
  class_of (self_after (Video_save self w)) = class_of self
  /\ title (fields (self_after (Video_save self w))) = title (fields self)
  /\ slug (fields (self_after (Video_save self w))) = slug (fields self)
  /\ tags (fields (self_after (Video_save self w))) = tags (fields self)
  /\ description (fields (self_after (Video_save self w)))
     = description (fields self)
  /\ is_public (fields (self_after (Video_save self w))) = is_public (fields self)
  /\ allow_comments (fields (self_after (Video_save self w)))
     = allow_comments (fields self).
Proof.
  pose proof (Video_save_frame self w) as H.
  split; [rewrite H; destruct self; reflexivity |].
  split; [rewrite H, fields_update; reflexivity |].
  split; [apply Video_save_slug |].
  split; [rewrite H, fields_update; reflexivity |].
  split; [rewrite H, fields_update; reflexivity |].
  split; [apply Video_save_is_public |].
  rewrite H, fields_update. reflexivity.
Qed.

(** X6. [save] writes no row but the instance's own: every other key of the
    table reads after the call as before. A [save] that returns leaves the
    number of rows as it was when the row was in the table already, and
    adds one to it otherwise. *)
Theorem X6_save_writes_its_own_row_only (self : instance) (w : World) :
  (forall k, id (fields (self_after (Video_save self w))) <> Some k ->
     videos (world_after (Video_save self w)) !! k = videos w !! k)
  /\ (outcome (Video_save self w) = Ok tt ->
      size (videos (world_after (Video_save self w)))
      = if stored self w then size (videos w) else S (size (videos w))).
Proof.
  split; [| apply Video_save_size].
  intros k Hk.
  destruct (Video_save_cases self w)
    as [(_ & _ & Hv & _) | (_ & _ & i & _ & Hid & Hv)]; simpl in *; rewrite Hv;
    [reflexivity |].
  apply lookup_insert_ne. congruence.
Qed.

Lemma X6_witness :
  outcome saved_basic = Ok tt
  /\ size (videos (world_after saved_basic)) = 1%nat
  /\ videos (world_after saved_basic) !! 7 = None.
Proof.
  split; [reflexivity |].
  destruct (X6_save_writes_its_own_row_only
              (of_BasicVideo (mk_BasicVideo sample_video)) sample_world)
    as [Hother Hsize].
  split.
  - exact (Hsize eq_refl).
  - unfold saved_basic. rewrite (Hother 7); [reflexivity |].
    vm_compute. discriminate.
Defined.

Lemma update_only_modified_date (f : Video) (o : instance) :
  id f = id (fields o) ->
  created_date f = created_date (fields o) ->
  publish_date f = publish_date (fields o) ->
  update (restamp f) o = update (set_modified_date (modified_date f)) o.
Proof.
  intros Hi Hc Hp.
  destruct o as [v|[v]|[v ? ?]|[v ? ? ? ?]]; simpl in *;
    unfold restamp; rewrite Hi, Hc, Hp; destruct v; reflexivity.
Qed.

(** X7. After a [save] that returned, a second [save] of the same instance
    returns too (the instance does not clash with its own row), and changes
    nothing of the instance but [modified_date]: key, [created_date] and
    [publish_date] are those of the first call. The table has as many rows
    as after the first call. *)
Theorem X7_second_save_changes_modified_date_only (self : instance) (w : World) :
  outcome (Video_save self w) = Ok tt ->
  outcome (Video_save (self_after (Video_save self w))
             (world_after (Video_save self w))) = Ok tt
  /\ self_after (Video_save (self_after (Video_save self w))
                   (world_after (Video_save self w)))
     = update
         (set_modified_date
            (modified_date
               (fields
                  (self_after (Video_save (self_after (Video_save self w))
                                 (world_after (Video_save self w)))))))
         (self_after (Video_save self w))
  /\ size (videos (world_after (Video_save (self_after (Video_save self w))
                                  (world_after (Video_save self w)))))
     = size (videos (world_after (Video_save self w))).
Proof.
  intros Hok.
  destruct (Video_save_cases self w)
    as [(_ & Hr & _) | (Ht & _ & i & Hi & Hid & Hv)]; simpl in *; [congruence |].
  apply refused_false in Ht as [Ht _].
  pose proof (Video_save_created_date_set self w Hok) as Hdate.
  set (o1 := self_after (Video_save self w)) in *.
  set (w1 := world_after (Video_save self w)) in *.
  assert (Hstored : stored o1 w1 = true).
  { unfold stored. rewrite Hid, Hv, lookup_insert_eq.
    apply bool_decide_eq_true_2. eauto. }
  assert (Hfree : slug_taken (slug (fields o1)) (id (fields o1)) (videos w1) = false).
  { destruct (slug_taken (slug (fields o1)) (id (fields o1)) (videos w1)) eqn:E;
      [| reflexivity].
    apply slug_taken_spec in E as (k & x & Hk & Hslug & Hne).
    rewrite Hid in Hne. rewrite Hv in Hk.
    rewrite lookup_insert_ne in Hk by congruence.
    assert (Htaken : slug_taken (slug (fields self)) (id (fields self)) (videos w) = true).
    { apply slug_taken_spec. exists k, x. split; [exact Hk |].
      split; [rewrite Hslug; apply Video_save_slug |].
      destruct (id (fields self)) as [j|]; [subst i; exact Hne | discriminate]. }
    congruence. }
  assert (Hgo : refused o1 w1 = false).
  { unfold refused. rewrite Hfree, Hstored. simpl.
    apply bool_decide_eq_false. destruct Hdate as [d Hd]. congruence. }
  destruct (Video_save_cases o1 w1)
    as [(Ht2 & _) | (_ & Hr2 & i2 & Hi2 & Hid2 & Hv2)]; simpl in *; [congruence |].
  rewrite Hid in Hi2. subst i2.
  split; [exact Hr2 |]. split.
  - rewrite (Video_save_frame o1 w1) at 1.
    apply update_only_modified_date.
    + rewrite Hid2, Hid. reflexivity.
    + apply (Video_save_created_date_kept o1 w1 Hstored).
    + rewrite Video_save_publish_date.
      destruct (publish_date (fields o1)) as [d|] eqn:Hp; [reflexivity |].
      unfold o1 in Hp. rewrite Video_save_publish_date in Hp.
      unfold o1. rewrite Video_save_is_public.
      destruct (publish_date (fields self)); [discriminate |].
      destruct (is_public (fields self)); [discriminate | reflexivity].
  - rewrite (Video_save_size o1 w1 Hr2), Hstored. reflexivity.
Qed.

Lemma X7_witness :
  outcome saved_basic = Ok tt
  /\ outcome (Video_save (self_after saved_basic) (world_after saved_basic)) = Ok tt
  /\ size (videos (world_after (Video_save (self_after saved_basic)
                                  (world_after saved_basic)))) = 1%nat.
Proof.
  split; [reflexivity |].
  destruct (X7_second_save_changes_modified_date_only
              (of_BasicVideo (mk_BasicVideo sample_video)) sample_world eq_refl)
    as (Hok & _ & Hsize).
  split; [exact Hok |].
  unfold saved_basic. rewrite Hsize. reflexivity.
Defined.

(** ** [HTML5Video]: saving a row, and the label of a row *)

(** X8. [save] on an [HTML5Video] without owner does not return, and so
    it is for a row made for a [BasicVideo] that has no key yet; a [save]
    that does not return changes neither the row nor the process. A [save]
    that returns leaves the row with a key and stored under it, and every
    other row of the table as it was; a second [save] of the row that
    returns changes nothing at all. The [save] of a new row for a stored
    [BasicVideo] returns when its type and the key of the owner are numbers
    the column can hold. *)
Theorem X8_html5video_save (h : HTML5Video) (w : World) :
  (basic_video_id h = None -> raises (outcome (HTML5Video_save h w)) = true)
  /\ (forall t f b, id (basic_fields b) = None ->
        raises (outcome (HTML5Video_save (HTML5Video_init t f (Some b)) w)) = true)
  /\ (raises (outcome (HTML5Video_save h w)) = true ->
      self_after (HTML5Video_save h w) = h
      /\ world_after (HTML5Video_save h w) = w)
  /\ (outcome (HTML5Video_save h w) = Ok tt ->
      (exists i,
          html5_id (self_after (HTML5Video_save h w)) = Some i
          /\ html5videos (world_after (HTML5Video_save h w)) !! i
             = Some (self_after (HTML5Video_save h w))
          /\ forall k, k <> i ->
               html5videos (world_after (HTML5Video_save h w)) !! k
               = html5videos w !! k)
      /\ (outcome (HTML5Video_save (self_after (HTML5Video_save h w))
                     (world_after (HTML5Video_save h w))) = Ok tt ->
          HTML5Video_save (self_after (HTML5Video_save h w))
            (world_after (HTML5Video_save h w))
          = mk_run (Ok tt) (self_after (HTML5Video_save h w))
              (world_after (HTML5Video_save h w))))
  /\ (forall pk b,
        html5_id h = None ->
        basic_video_id h = Some pk ->
        videos w !! pk = Some (of_BasicVideo b) ->
        fits_integer (video_type h) = true ->
        fits_integer pk = true ->
        outcome (HTML5Video_save h w) = Ok tt).
Proof.
  assert (Hnone : forall x, basic_video_id x = None ->
                    raises (outcome (HTML5Video_save x w)) = true).
  { intros x Hx. rewrite HTML5Video_save_run, Hx.
    destruct (_ && _); reflexivity. }
  split; [apply Hnone |].
  split; [intros t f b Hb; apply Hnone; unfold HTML5Video_init; simpl; exact Hb |].
  split; [| split].
  - rewrite HTML5Video_save_run.
    destruct (_ && _); [| split; reflexivity].
    destruct (basic_video_id h); [discriminate | split; reflexivity].
  - rewrite !HTML5Video_save_run.
    destruct (_ && _); [| discriminate].
    destruct (basic_video_id h) as [pk|] eqn:Hpk; [| discriminate].
    intros _. simpl. split.
    + eexists. split; [reflexivity |].
      split; [apply lookup_insert_eq |].
      intros k Hk. apply lookup_insert_ne. congruence.
    + rewrite Hpk. simpl. destruct (_ && _); [| discriminate]. intros _.
      unfold set_html5videos, set_html5_id. simpl.
      rewrite insert_insert_eq. reflexivity.
  - intros pk b Hid Hpk _ Hvt Hfit.
    rewrite HTML5Video_save_run, Hid, Hpk. simpl. rewrite Hvt, Hfit. reflexivity.
Qed.

Lemma X8_witness :
  basic_video_id (HTML5Video_init None None None) = None
  /\ raises (outcome (HTML5Video_save (HTML5Video_init None None None) sample_world))
     = true
  /\ outcome first_payload = Ok tt
  /\ outcome (HTML5Video_save (self_after first_payload) (world_after first_payload))
     = Ok tt
  /\ HTML5Video_save (self_after first_payload) (world_after first_payload)
     = mk_run (Ok tt) (self_after first_payload) (world_after first_payload).
Proof.
  destruct (X8_html5video_save (HTML5Video_init None None None) sample_world)
    as (Hnone & _).
  split; [reflexivity |].
  split; [exact (Hnone eq_refl) |].
  unfold first_payload.
  destruct (X8_html5video_save (HTML5Video_init None None (Some saved_basic_video))
              (world_after saved_basic)) as (_ & _ & _ & Hok & _).
  assert (Hfirst : outcome (HTML5Video_save
                              (HTML5Video_init None None (Some saved_basic_video))
                              (world_after saved_basic)) = Ok tt)
    by (vm_compute; reflexivity).
  destruct (Hok Hfirst) as [_ Hagain].
  assert (Hsecond : outcome (HTML5Video_save
                               (self_after
                                  (HTML5Video_save
                                     (HTML5Video_init None None (Some saved_basic_video))
                                     (world_after saved_basic)))
                               (world_after
                                  (HTML5Video_save
                                     (HTML5Video_init None None (Some saved_basic_video))
                                     (world_after saved_basic)))) = Ok tt)
    by (vm_compute; reflexivity).
  split; [exact Hfirst |]. split; [exact Hsecond |].
  exact (Hagain Hsecond).
Defined.

(** X9. [get_video_type_display] gives a label of [VIDEO_TYPE] exactly for
    the four types [0..3]; for any other stored number it gives the number
    itself back. *)
Theorem X9_display_of_unknown_type (h : HTML5Video) :
  (0 <= video_type h <= 3 ->
   exists label,
     HTML5Video_get_video_type_display h = PyStr label
     /\ In (video_type h, label) VIDEO_TYPE)
  /\ (~ 0 <= video_type h <= 3 ->
      HTML5Video_get_video_type_display h = PyInt (video_type h)).
Proof.
  unfold HTML5Video_get_video_type_display. split.
  - intros Hr.
    assert (Hc : video_type h = 0 \/ video_type h = 1
                 \/ video_type h = 2 \/ video_type h = 3) by lia.
    destruct Hc as [-> | [-> | [-> | ->]]]; eexists; (split; [reflexivity |]);
      simpl; tauto.
  - intros Hr. unfold VIDEO_TYPE, OGG, WEBM, MP4, FLASH. simpl.
    repeat match goal with
           | |- context [?a =? ?b] =>
               destruct (Z.eqb_spec a b); [exfalso; lia |]
           end.
    reflexivity.
Qed.

Lemma X9_witness :
  0 <= video_type (mk_HTML5Video None 3 None None) <= 3
  /\ HTML5Video_get_video_type_display (mk_HTML5Video None 3 None None)
     = PyStr "video/flv"
  /\ ~ 0 <= video_type (mk_HTML5Video None 7 None None) <= 3
  /\ HTML5Video_get_video_type_display (mk_HTML5Video None 7 None None) = PyInt 7.
Proof.
  assert (Hin : 0 <= video_type (mk_HTML5Video None 3 None None) <= 3)
    by (simpl; lia).
  assert (Hout : ~ 0 <= video_type (mk_HTML5Video None 7 None None) <= 3)
    by (simpl; lia).
  destruct (X9_display_of_unknown_type (mk_HTML5Video None 3 None None))
    as [Hlabel _].
  destruct (X9_display_of_unknown_type (mk_HTML5Video None 7 None None))
    as [_ Hnumber].
  split; [exact Hin |]. split; [reflexivity |].
  split; [exact Hout | exact (Hnumber Hout)].
Defined.

(** ** The fallback [TagField] *)

(** X10. The fallback [TagField] passes every keyword of the caller on to
    [CharField] with the caller's value, [max_length] and [blank] included;
    when the caller leaves one of these two out, it is 255, respectively
    [True]; no other keyword is added. *)
Theorem X10_tagfield_defaults_can_be_overridden (kwargs : gmap string kwarg) :
  (forall k v, kwargs !! k = Some v -> TagField_init kwargs !! k = Some v)
  /\ (kwargs !! "max_length" = None ->
      TagField_init kwargs !! "max_length" = Some (KwInt 255))
  /\ (kwargs !! "blank" = None ->
      TagField_init kwargs !! "blank" = Some (KwBool true))
  /\ (forall k, k <> "max_length" -> k <> "blank" ->
        TagField_init kwargs !! k = kwargs !! k).
Proof.
  unfold TagField_init, dict_update, TagField_default_kwargs.
  split; [| split; [| split]].
  - intros k v Hk. apply lookup_union_Some_l, Hk.
  - intros Hnone. rewrite lookup_union_r by exact Hnone.
    apply lookup_insert_eq.
  - intros Hnone. rewrite lookup_union_r by exact Hnone.
    rewrite lookup_insert_ne by discriminate. apply lookup_singleton_eq.
  - intros k Hm Hb. destruct (kwargs !! k) as [v|] eqn:Hk.
    + apply lookup_union_Some_l, Hk.
    + rewrite lookup_union_r by exact Hk.
      rewrite lookup_insert_ne by congruence.
      apply lookup_singleton_ne. congruence.
Qed.

Lemma X10_witness :
  ({[ "help_text" := KwStr (tagfield_help_text false) ]} : gmap string kwarg)
    !! "max_length" = None
  /\ TagField_init {[ "help_text" := KwStr (tagfield_help_text false) ]}
       !! "max_length" = Some (KwInt 255)
  /\ TagField_init {[ "max_length" := KwInt 50 ]} !! "max_length" = Some (KwInt 50).
Proof.
  split; [reflexivity |].
  destruct (X10_tagfield_defaults_can_be_overridden
              {[ "help_text" := KwStr (tagfield_help_text false) ]})
    as (_ & Hmax & _).
  destruct (X10_tagfield_defaults_can_be_overridden {[ "max_length" := KwInt 50 ]})
    as (Hpass & _).
  split; [exact (Hmax eq_refl) |].
  exact (Hpass "max_length" (KwInt 50) eq_refl).
Defined.

(** ** [save], then [get_absolute_url] *)

Lemma get_absolute_url_published
    (rev : string -> list value -> gmap string value -> result string)
    (v : Video) (d : datetime) :
  publish_date v = Some d ->
  valid_datetime d = true ->
  1900 <= year d ->
  Video_get_absolute_url rev v
  = rev "videostream_video_detail" []
      {[ "year" := PyStr (four_digits (year d));
         "month" := PyStr (nth (Z.to_nat (month d - 1)) month_keys "");
         "day" := PyStr (two_digits (day d));
         "slug" := PyStr (slug v) ]}.
Proof.
  intros Hd Hvalid Hy.
  unfold Video_get_absolute_url, permalink, Video_get_absolute_url_bits.
  rewrite Hd.
  destruct (valid_datetime_bounds d Hvalid) as (Hyr & Hm & Hday).
  rewrite strftime_Y, strftime_b_expand, strftime_d by lia. simpl.
  destruct (lower_strftime_b d Hm) as [-> _]. reflexivity.
Qed.

(** X11. The first [save] of an instance that is public and has no
    [publish_date] fixes its address: whether or not the write is refused,
    [get_absolute_url] of the instance is afterwards the dated path, keyed
    by the day of the clock reading of line 86 (when that is a date of 1900
    or later) and by the slug. An instance that is not public and has no
    key gets, when its [save] returns, the path by identifier, with the key
    it was given: a key that no row had, under which the table now holds
    the instance. *)
Theorem X11_address_after_save
    (rev : string -> list value -> gmap string value -> result string)
    (self : instance) (w : World) :
  publish_date (fields self) = None ->
  (is_public (fields self) = true ->
   valid_datetime (clock w (S (ticks w))) = true ->
   1900 <= year (clock w (S (ticks w))) ->
   Video_get_absolute_url rev (fields (self_after (Video_save self w)))
   = rev "videostream_video_detail" []
       {[ "year" := PyStr (four_digits (year (clock w (S (ticks w)))));
          "month" := PyStr (nth (Z.to_nat (month (clock w (S (ticks w))) - 1))
                              month_keys "");
          "day" := PyStr (two_digits (day (clock w (S (ticks w)))));
          "slug" := PyStr (slug (fields self)) ]})
  /\ (is_public (fields self) = false ->
      id (fields self) = None ->
      outcome (Video_save self w) = Ok tt ->
      exists i,
        id (fields (self_after (Video_save self w))) = Some i
        /\ videos w !! i = None
        /\ videos (world_after (Video_save self w)) !! i
           = Some (self_after (Video_save self w))
        /\ Video_get_absolute_url rev (fields (self_after (Video_save self w)))
           = rev "videostream_video_detail_id" [PyInt i] ∅).
Proof.
  intros Hnone. split.
  - intros Hpub Hvalid Hy.
    rewrite (get_absolute_url_published rev _ (clock w (S (ticks w))));
      [rewrite Video_save_slug; reflexivity | | exact Hvalid | exact Hy].
    rewrite Video_save_publish_date, Hnone, Hpub. reflexivity.
  - intros Hpub Hid Hok.
    destruct (Video_save_cases self w)
      as [(_ & Hr & _) | (_ & _ & i & Hi & Hkey & Hrows)]; simpl in *;
      [congruence |].
    rewrite Hid in Hi. exists i.
    split; [exact Hkey |].
    split; [subst i; apply next_id_fresh |].
    split; [rewrite Hrows; apply lookup_insert_eq |].
    unfold Video_get_absolute_url, permalink, Video_get_absolute_url_bits.
    rewrite Video_save_publish_date, Hnone, Hpub, Hkey. reflexivity.
Qed.

Lemma X11_witness :
  publish_date (fields (of_Video sample_video)) = None
  /\ is_public (fields (of_Video sample_video)) = true
  /\ valid_datetime (clock sample_world (S (ticks sample_world))) = true
  /\ 1900 <= year (clock sample_world (S (ticks sample_world)))
  /\ Video_get_absolute_url sample_reverse
       (fields (self_after (Video_save (of_Video sample_video) sample_world)))
     = Ok "/2011/may/17/intro-clip/".
Proof.
  assert (Hy : 1900 <= year (clock sample_world (S (ticks sample_world))))
    by (simpl; lia).
  split; [reflexivity |]. split; [reflexivity |]. split; [reflexivity |].
  split; [exact Hy |].
  destruct (X11_address_after_save sample_reverse (of_Video sample_video)
              sample_world eq_refl) as [Hdated _].
  rewrite (Hdated eq_refl eq_refl Hy). vm_compute. reflexivity.
Defined.

(** X12. The body of [get_absolute_url] raises exactly when [publish_date]
    is set to a date before 1900, and what it raises is [ValueError]. In
    every other case, an instance without key included, the call goes
    through to [reverse] and its result is the result of [reverse]. *)
Theorem X12_get_absolute_url_raises_before_1900
    (rev : string -> list value -> gmap string value -> result string)
    (self : Video) :
  (raises (Video_get_absolute_url_bits self) = true
   <-> exists d, publish_date self = Some d /\ year d < 1900)
  /\ (forall d, publish_date self = Some d -> year d < 1900 ->
        Video_get_absolute_url rev self = Raise ValueError)
  /\ (raises (Video_get_absolute_url_bits self) = false ->
      exists name args kwargs,
        Video_get_absolute_url_bits self = Ok (name, args, kwargs)
        /\ Video_get_absolute_url rev self = rev name args kwargs).
Proof.
  unfold Video_get_absolute_url, permalink, Video_get_absolute_url_bits, strftime.
  destruct (publish_date self) as [d|] eqn:Hd.
  - destruct (year d <? 1900) eqn:E; simpl.
    + apply Z.ltb_lt in E. split; [| split].
      * split; [intros _; exists d; split; [reflexivity | exact E] | reflexivity].
      * reflexivity.
      * discriminate.
    + apply Z.ltb_ge in E. split; [| split].
      * split; [discriminate |].
        intros (d' & Hd' & Hy). inversion Hd'. subst d'. lia.
      * intros d' Hd' Hy. inversion Hd'. subst d'. lia.
      * intros _. do 3 eexists. split; reflexivity.
  - simpl. split; [| split].
    + split; [discriminate | intros (d & Hd' & _); discriminate].
    + intros d Hd'. discriminate.
    + intros _. do 3 eexists. split; reflexivity.
Qed.

Lemma X12_witness :
  publish_date sample_old = Some (mk_datetime 999 1 1 0 0 0 0)
  /\ year (mk_datetime 999 1 1 0 0 0 0) < 1900
  /\ Video_get_absolute_url sample_reverse sample_old = Raise ValueError
  /\ raises (Video_get_absolute_url_bits sample_draft) = false
  /\ Video_get_absolute_url sample_reverse sample_draft = Raise NoReverseMatch.
Proof.
  assert (Hy : year (mk_datetime 999 1 1 0 0 0 0) < 1900) by (simpl; lia).
  split; [reflexivity |]. split; [exact Hy |].
  destruct (X12_get_absolute_url_raises_before_1900 sample_reverse sample_old)
    as (_ & Hold & _).
  split; [exact (Hold _ eq_refl Hy) |].
  split; [reflexivity |].
  destruct (X12_get_absolute_url_raises_before_1900 sample_reverse sample_draft)
    as (_ & _ & Hgo).
  destruct (Hgo eq_refl) as (name & args & kwargs & Hbits & Hurl).
  rewrite Hurl. inversion Hbits. reflexivity.
Defined.
